(** * logicLeague: the KPI analytics, alerting and alert-update code

    A shallow embedding of [server/services/analyticsService.ts], of the
    parts of [server/storage.ts] it calls, and of the two route handlers of
    [server/routes.ts] that create and update alerts.

    - JavaScript numbers are IEEE 754 binary64 values: they are embedded as
      Rocq's primitive floats, so every arithmetic step rounds as it does in
      the program.
    - [async] functions that read and write the database, the clock, the
      random generator and the console are embedded in a state-and-exception
      monad over an explicit [World].
    - The relational tables are lists of rows in table order. *)

From Stdlib Require Import Floats ZArith Uint63 Bool List String DecimalString Lia.
Import ListNotations.

Set Warnings "-inexact-float".

Local Open Scope Z_scope.

(** ** JavaScript numbers and the [Math] functions the services use *)

Module JS.

Definition number := float.
Bind Scope float_scope with number.

(** An integer of magnitude below 2^63 as a number; exact below 2^53. *)
Definition of_Z (z : Z) : number :=
  if z <? 0 then PrimFloat.opp (PrimFloat.of_uint63 (Uint63.of_Z (- z)))
  else PrimFloat.of_uint63 (Uint63.of_Z z).

Definition of_nat (n : nat) : number := of_Z (Z.of_nat n).

(** [Math.floor]: a finite number with a non-negative exponent is an
    integer already; otherwise the magnitude is below 2^52 and the floor
    is taken on the exact value [m * 2^e]. *)
Definition Math_floor (x : number) : number :=
  match Prim2SF x with
  | S754_finite s m e =>
      if 0 <=? e then x
      else
        let d := 2 ^ (- e) in
        let q := Z.pos m / d in
        if s then of_Z (- (if Z.pos m mod d =? 0 then q else q + 1))
        else of_Z q
  | _ => x
  end.

(** [Math.round]: the nearest integer, a tie going towards +infinity;
    a negative argument that rounds to zero gives -0. *)
Definition Math_round (x : number) : number :=
  match Prim2SF x with
  | S754_finite s m e =>
      if 0 <=? e then x
      else
        let d := 2 ^ (- e) in
        let z := ((if s then - (2 * Z.pos m) else 2 * Z.pos m) + d) / (2 * d) in
        if (z =? 0) && s then PrimFloat.neg_zero else of_Z z
  | _ => x
  end.

(** [Math.max] of two arguments: NaN if either is NaN, and +0 over -0. *)
Definition Math_max (a b : number) : number :=
  if PrimFloat.is_nan a || PrimFloat.is_nan b then PrimFloat.nan
  else if PrimFloat.ltb a b then b
  else if PrimFloat.ltb b a then a
  else if PrimFloat.get_sign a then b else a.

Definition Math_abs (x : number) : number := PrimFloat.abs x.
Definition Math_sqrt (x : number) : number := PrimFloat.sqrt x.

(** [Math.pow(x, 2)], the only exponent the services use: the square,
    as the rounded product of the number with itself. *)
Definition Math_pow2 (x : number) : number := PrimFloat.mul x x.

(** [Math.ceil], by way of [Math.floor]. *)
Definition Math_ceil (x : number) : number :=
  PrimFloat.opp (Math_floor (PrimFloat.opp x)).

(** [Math.ceil(m / 3)] for an integer [m], as an integer; the services
    apply it to month numbers, where it is the ceiling [Math.ceil] gives
    for the rounded quotient ([Math_ceil_div3_months] below). *)
Definition Math_ceil_div3 (m : Z) : Z := (m + 2) / 3.

(** [Array.prototype.slice(start, end)] with integer arguments. *)
Definition slice {A : Type} (l : list A) (start : Z) (end_ : option Z) : list A :=
  let len := Z.of_nat (List.length l) in
  let clamp i := if i <? 0 then Z.max (len + i) 0 else Z.min i len in
  let k := clamp start in
  let e := match end_ with None => len | Some e => clamp e end in
  firstn (Z.to_nat (e - k)) (skipn (Z.to_nat k) l).

(** [a || b] on strings: the empty string and [undefined] are falsy. *)
Definition string_or (a : option string) (b : string) : string :=
  match a with
  | Some s => if String.eqb s "" then b else s
  | None => b
  end.

(** [v || 0] on numbers: [undefined], 0, -0 and NaN are falsy. *)
Definition number_or_zero (v : option number) : number :=
  match v with
  | Some x => if PrimFloat.is_nan x || PrimFloat.is_zero x then PrimFloat.zero else x
  | None => PrimFloat.zero
  end.

Definition string_of_Z (z : Z) : string := NilZero.string_of_int (Z.to_int z).
Definition string_of_nat (n : nat) : string := NilZero.string_of_uint (Nat.to_uint n).

(** [Array.prototype.join(sep)] on strings. *)
Definition join (sep : string) (l : list string) : string := String.concat sep l.

(** A calendar date in local time: [getFullYear], [getMonth] (0 to 11)
    and [getDate]. *)
Record Date := mkDate { getFullYear : Z; getMonth : Z; getDate : Z }.

Definition isLeapYear (y : Z) : bool :=
  ((y mod 4 =? 0) && negb (y mod 100 =? 0)) || (y mod 400 =? 0).

Definition daysInMonth (y m : Z) : Z :=
  if m =? 1 then (if isLeapYear y then 29 else 28)
  else if (m =? 3) || (m =? 5) || (m =? 8) || (m =? 10) then 30
  else 31.

(** [d.setMonth(m)]: the month may be any integer, and a day of the month
    the target month does not have runs over into the next month. *)
Definition setMonth (d : Date) (m : Z) : Date :=
  let y := getFullYear d + m / 12 in
  let m' := m mod 12 in
  let dim := daysInMonth y m' in
  if getDate d <=? dim then mkDate y m' (getDate d)
  else mkDate y (m' + 1) (getDate d - dim).

End JS.

Import JS.

(** ** The tables of [shared/schema.ts] *)

Module Schema.

Definition uuid := string.
Bind Scope string_scope with uuid.

Record Department := mkDepartment
  { dept_id : uuid; dept_name : string; dept_code : string; dept_isActive : bool }.

Record Pillar := mkPillar { pillar_id : uuid; pillar_name : string }.

Record KPI := mkKPI
  { kpi_id : uuid; kpi_name : string; kpi_pillarId : uuid;
    kpi_departmentId : uuid; kpi_frequency : string; kpi_isActive : bool }.

Inductive Status := green | amber | red.

(** [KPIWithDetails]: a KPI row joined with its pillar and department,
    with the status and progress the storage layer attaches. *)
Record KPIWithDetails := mkKPIWithDetails
  { kwd_kpi : KPI; kwd_pillar : Pillar; kwd_department : Department;
    kwd_status : Status; kwd_progress : number }.

Record Threshold := mkThreshold
  { th_green : number; th_amber : number; th_red : number }.

(** [targetValue] and [actualValue] are decimal columns read back as text;
    the rows carry the number [parseFloat] gives for that text. *)
Record Target := mkTarget
  { tgt_id : uuid; tgt_kpiId : uuid; tgt_year : Z; tgt_quarter : option Z;
    tgt_targetValue : number; tgt_threshold : Threshold }.

Record InsertActual := mkInsertActual
  { ia_kpiId : uuid; ia_targetId : uuid; ia_actualValue : number;
    ia_submittedBy : uuid; ia_evidenceFiles : list string;
    ia_comments : option string }.

Record Actual := mkActual
  { act_id : uuid; act_kpiId : uuid; act_targetId : uuid;
    act_actualValue : number; act_submittedBy : uuid;
    act_evidenceFiles : list string; act_comments : option string;
    act_status : string }.

Inductive AlertType :=
  threshold_breach | target_exceeded | anomaly_detected | overdue_submission.

Inductive Severity := low | medium | high | critical.

(** A template literal: its text with the numbers it interpolates kept
    as numbers. *)
Inductive Piece := Text (s : string) | Num (x : number).
Definition Template := list Piece.

Record InsertAlert := mkInsertAlert
  { ins_type : AlertType; ins_severity : Severity; ins_title : string;
    ins_description : Template; ins_kpiId : option uuid;
    ins_departmentId : option uuid;
    ins_isRead : option bool; ins_isResolved : option bool }.

Record Alert := mkAlert
  { al_id : uuid; al_type : AlertType; al_severity : Severity;
    al_title : string; al_description : Template;
    al_kpiId : option uuid; al_departmentId : option uuid;
    al_isRead : bool; al_isResolved : bool;
    al_resolvedBy : option uuid; al_resolvedAt : option Z;
    al_createdAt : Z }.

(** [Partial<Alert>] as the alert route builds it. *)
Record AlertUpdate := mkAlertUpdate
  { upd_isRead : option bool; upd_isResolved : option bool;
    upd_resolvedBy : option uuid; upd_resolvedAt : option Z }.

Record AuditLog := mkAuditLog
  { log_userId : uuid; log_action : string; log_resourceType : string;
    log_resourceId : uuid }.

Record DepartmentPerformance := mkDepartmentPerformance
  { dp_id : uuid; dp_name : string; dp_code : string; dp_score : number;
    dp_status : Status; dp_kpiCount : number; dp_trend : number }.

Record Database := mkDatabase
  { departments : list Department; pillars : list Pillar; kpis : list KPI;
    targets : list Target; actuals : list Actual; alerts : list Alert;
    auditLogs : list AuditLog }.

End Schema.

Import Schema.

(** ** The world an [async] function runs in *)

Module Runtime.

Inductive StorageOp :=
| OpGetDepartments | OpGetKPIs | OpGetKPI | OpGetTargets | OpGetActuals
| OpCreateActual | OpCreateAlert | OpUpdateAlert | OpCreateAuditLog.

Inductive Error := MkError (message : string).

Inductive LogEntry :=
| ConsoleLog (msg : Template)
| ConsoleError (tag : string) (e : Error).

(** [unavailable op] tells whether the database rejects the query of [op];
    [now] and [nowTime] are what [new Date()] reads; [randoms] lists the
    successive results of [Math.random()], [randomIndex] the next one. *)
Record World := mkWorld
  { db : Database;
    unavailable : StorageOp -> bool;
    now : Date;
    nowTime : Z;
    randoms : nat -> number;
    randomIndex : nat;
    nextId : nat;
    console : list LogEntry }.

Definition with_db (d : Database) (w : World) : World :=
  mkWorld d (unavailable w) (now w) (nowTime w) (randoms w) (randomIndex w)
          (nextId w) (console w).

Definition with_console (c : list LogEntry) (w : World) : World :=
  mkWorld (db w) (unavailable w) (now w) (nowTime w) (randoms w)
          (randomIndex w) (nextId w) c.

Definition with_clock (d : Date) (t : Z) (w : World) : World :=
  mkWorld (db w) (unavailable w) d t (randoms w) (randomIndex w)
          (nextId w) (console w).

Inductive Outcome (A : Type) :=
| Returned (a : A)
| Thrown (e : Error).
Arguments Returned {A} a.
Arguments Thrown {A} e.

(** An [async] computation: it returns or throws, and leaves a world. *)
Definition Async (A : Type) := World -> Outcome A * World.

Definition ret {A} (a : A) : Async A := fun w => (Returned a, w).

Definition throw {A} (e : Error) : Async A := fun w => (Thrown e, w).

Definition bind {A B} (c : Async A) (k : A -> Async B) : Async B :=
  fun w =>
    match c w with
    | (Returned a, w') => k a w'
    | (Thrown e, w') => (Thrown e, w')
    end.

(** [try { body } catch (error) { handler }]: what the body wrote before
    it threw stays written. *)
Definition tryCatch {A} (body : Async A) (handler : Error -> Async A) : Async A :=
  fun w =>
    match body w with
    | (Returned a, w') => (Returned a, w')
    | (Thrown e, w') => handler e w'
    end.

Definition console_log (msg : Template) : Async unit :=
  fun w => (Returned tt, with_console (console w ++ [ConsoleLog msg]) w).

Definition console_error (tag : string) (e : Error) : Async unit :=
  fun w => (Returned tt, with_console (console w ++ [ConsoleError tag e]) w).

Definition new_Date : Async Date := fun w => (Returned (now w), w).

Definition Date_now : Async Z := fun w => (Returned (nowTime w), w).

Definition Math_random : Async number :=
  fun w =>
    (Returned (randoms w (randomIndex w)),
     mkWorld (db w) (unavailable w) (now w) (nowTime w) (randoms w)
             (S (randomIndex w)) (nextId w) (console w)).

(** [gen_random_uuid()]: a key no earlier row of this world was given. *)
Definition gen_random_uuid : Async uuid :=
  fun w =>
    (Returned (String.append "row-" (string_of_nat (nextId w))),
     mkWorld (db w) (unavailable w) (now w) (nowTime w) (randoms w)
             (randomIndex w) (S (nextId w)) (console w)).

(** A query: rejected when the database is unavailable for it. *)
Definition query (op : StorageOp) : Async unit :=
  fun w =>
    if unavailable w op then (Thrown (MkError "database unavailable"), w)
    else (Returned tt, w).

Definition read_db : Async Database := fun w => (Returned (db w), w).

(** A [SELECT]: the rows a pure query picks from the database. *)
Definition select {A} (op : StorageOp) (rows : Database -> A) : Async A :=
  fun w =>
    if unavailable w op then (Thrown (MkError "database unavailable"), w)
    else (Returned (rows (db w)), w).

Definition write_db (d : Database) : Async unit :=
  fun w => (Returned tt, with_db d w).

End Runtime.

Import Runtime.

Declare Scope async_scope.
Delimit Scope async_scope with async.
Notation "x <- c ;; k" := (bind c (fun x => k))
  (at level 61, c at next level, right associativity) : async_scope.
Notation "c ;;; k" := (bind c (fun _ => k))
  (at level 61, right associativity) : async_scope.
Local Open Scope async_scope.

(** ** [server/storage.ts]: the queries the services and routes call *)

Module Storage.

Fixpoint mapM {A B} (f : A -> Async B) (l : list A) : Async (list B) :=
  match l with
  | [] => ret []
  | x :: l' => y <- f x ;; ys <- mapM f l' ;; ret (y :: ys)
  end.

Definition getDepartments : Async (list Department) :=
  select OpGetDepartments (fun d => filter dept_isActive (departments d)).

(** [kpis INNER JOIN pillars INNER JOIN departments] on the two keys. *)
Definition kpiJoin (d : Database) : list (KPI * Pillar * Department) :=
  flat_map (fun k =>
    flat_map (fun p =>
      map (fun dep => (k, p, dep))
          (filter (fun dep => String.eqb (kpi_departmentId k) (dept_id dep))
                  (departments d)))
      (filter (fun p => String.eqb (kpi_pillarId k) (pillar_id p)) (pillars d)))
    (kpis d).

(** The status and progress every joined row is given. *)
Definition withDetails (row : KPI * Pillar * Department) : KPIWithDetails :=
  let '(k, p, dep) := row in
  mkKPIWithDetails k p dep amber 75%float.

Definition getKPIs (departmentId : option uuid) : Async (list KPIWithDetails) :=
  select OpGetKPIs (fun d =>
    let active := filter (fun r => kpi_isActive (fst (fst r))) (kpiJoin d) in
    let result :=
      match departmentId with
      | Some dep =>
          if String.eqb dep "" then active
          else filter (fun r => String.eqb (kpi_departmentId (fst (fst r))) dep)
                      active
      | None => active
      end in
    map withDetails result).

Definition getKPI (id : uuid) : Async (option KPIWithDetails) :=
  select OpGetKPI (fun d =>
    match filter (fun r => String.eqb (kpi_id (fst (fst r))) id) (kpiJoin d) with
    | [] => None
    | result :: _ => Some (withDetails result)
    end).

Definition quarter_matches (quarter : option Z) (t : Target) : bool :=
  match quarter with
  | None => true
  | Some q => match tgt_quarter t with Some q' => Z.eqb q' q | None => false end
  end.

Definition getTargets (kpiId : uuid) (year : Z) (quarter : option Z)
  : Async (list Target) :=
  select OpGetTargets (fun d =>
    filter (fun t => String.eqb (tgt_kpiId t) kpiId && Z.eqb (tgt_year t) year
                     && quarter_matches quarter t)
           (targets d)).

(** [actuals INNER JOIN targets ON actuals.targetId = targets.id], kept
    when the actual is of the KPI and the target of the period. *)
Definition getActuals (kpiId : uuid) (year : Z) (quarter : option Z)
  : Async (list Actual) :=
  select OpGetActuals (fun d =>
    flat_map (fun a =>
      map (fun _ => a)
          (filter (fun t => String.eqb (act_targetId a) (tgt_id t)
                            && String.eqb (act_kpiId a) kpiId
                            && Z.eqb (tgt_year t) year
                            && quarter_matches quarter t)
                  (targets d)))
      (actuals d)).

Definition createActual (insertActual : InsertActual) : Async Actual :=
  query OpCreateActual ;;;
  id <- gen_random_uuid ;;
  d <- read_db ;;
  let actual :=
    mkActual id (ia_kpiId insertActual) (ia_targetId insertActual)
             (ia_actualValue insertActual) (ia_submittedBy insertActual)
             (ia_evidenceFiles insertActual) (ia_comments insertActual)
             "pending" in
  write_db (mkDatabase (departments d) (pillars d) (kpis d) (targets d)
                       (actuals d ++ [actual]) (alerts d) (auditLogs d)) ;;;
  ret actual.

Definition bool_default (o : option bool) (d : bool) : bool :=
  match o with Some b => b | None => d end.

Definition set_alerts (l : list Alert) (d : Database) : Database :=
  mkDatabase (departments d) (pillars d) (kpis d) (targets d) (actuals d) l
             (auditLogs d).

Definition createAlert (insertAlert : InsertAlert) : Async Alert :=
  query OpCreateAlert ;;;
  id <- gen_random_uuid ;;
  createdAt <- Date_now ;;
  d <- read_db ;;
  let alert :=
    mkAlert id (ins_type insertAlert) (ins_severity insertAlert)
            (ins_title insertAlert) (ins_description insertAlert)
            (ins_kpiId insertAlert) (ins_departmentId insertAlert)
            (bool_default (ins_isRead insertAlert) false)
            (bool_default (ins_isResolved insertAlert) false)
            None None createdAt in
  write_db (set_alerts (alerts d ++ [alert]) d) ;;;
  ret alert.

Definition option_default {A} (o : option A) (d : A) : A :=
  match o with Some x => x | None => d end.

Definition option_override {A} (o : option A) (d : option A) : option A :=
  match o with Some x => Some x | None => d end.

(** [SET] of the columns the update carries. *)
Definition applyUpdate (u : AlertUpdate) (a : Alert) : Alert :=
  mkAlert (al_id a) (al_type a) (al_severity a) (al_title a)
          (al_description a) (al_kpiId a) (al_departmentId a)
          (option_default (upd_isRead u) (al_isRead a))
          (option_default (upd_isResolved u) (al_isResolved a))
          (option_override (upd_resolvedBy u) (al_resolvedBy a))
          (option_override (upd_resolvedAt u) (al_resolvedAt a))
          (al_createdAt a).

Definition noValues (u : AlertUpdate) : bool :=
  match upd_isRead u, upd_isResolved u, upd_resolvedBy u, upd_resolvedAt u with
  | None, None, None, None => true
  | _, _, _, _ => false
  end.

(** [UPDATE alerts SET ... WHERE id = ... RETURNING *]; an update that
    carries no column is refused by the query builder. *)
Definition updateAlert (id : uuid) (updateAlert : AlertUpdate)
  : Async (option Alert) :=
  if noValues updateAlert then throw (MkError "No values to set")
  else
    query OpUpdateAlert ;;;
    d <- read_db ;;
    let hit a := String.eqb (al_id a) id in
    let rows := map (fun a => if hit a then applyUpdate updateAlert a else a)
                    (alerts d) in
    write_db (set_alerts rows d) ;;;
    ret (hd_error (filter hit rows)).

Definition createAuditLog (log : AuditLog) : Async AuditLog :=
  query OpCreateAuditLog ;;;
  d <- read_db ;;
  write_db (mkDatabase (departments d) (pillars d) (kpis d) (targets d)
                       (actuals d) (alerts d) (auditLogs d ++ [log])) ;;;
  ret log.

(** The callback of [depts.map] in [getDepartmentPerformance]: the object
    literal evaluates its properties in order, so the calls of
    [Math.random()] are made in the order written. *)
Definition departmentPerformanceOf (dept : Department) : Async DepartmentPerformance :=
  r1 <- Math_random ;;
  let score := (Math_floor (r1 * 40) + 60)%float in
  r2 <- Math_random ;;
  status <- (if PrimFloat.ltb 0.7 r2 then ret green
             else r3 <- Math_random ;;
                  ret (if PrimFloat.ltb 0.4 r3 then amber else red)) ;;
  r4 <- Math_random ;;
  let kpiCount := (Math_floor (r4 * 15) + 10)%float in
  r5 <- Math_random ;;
  let trend := (Math_floor (r5 * 20) - 10)%float in
  ret (mkDepartmentPerformance (dept_id dept) (dept_name dept) (dept_code dept)
                               score status kpiCount trend).

Definition getDepartmentPerformance (year quarter : Z)
  : Async (list DepartmentPerformance) :=
  depts <- getDepartments ;;
  mapM departmentPerformanceOf depts.

End Storage.

Import Storage.

(** ** [server/services/analyticsService.ts] *)

Module AnalyticsService.

Inductive Trend := increasing | decreasing | stable.
Inductive Impact := positive | negative | neutral.

Record ForecastPoint := mkForecastPoint
  { fp_period : string; fp_predictedValue : number; fp_confidence : number }.

Record ForecastResult := mkForecastResult
  { fr_kpiId : uuid; fr_forecast : list ForecastPoint; fr_trend : Trend;
    fr_recommendation : string }.

Record Scenario := mkScenario { sc_name : option string; sc_value : option number }.

Record ScenarioOutcome := mkScenarioOutcome
  { so_name : string; so_inputValue : number; so_projectedOutcome : number;
    so_impact : Impact; so_confidence : number }.

Record ScenarioTestResult := mkScenarioTestResult
  { st_kpiId : uuid; st_scenarios : list ScenarioOutcome;
    st_recommendations : list string }.

Record HistoricalDatum := mkHistoricalDatum
  { hd_period : string; hd_value : number; hd_date : Date }.

(** The template [Q${quarter} ${year}]. *)
Definition periodLabel (quarter year : Z) : string :=
  String.append "Q" (String.append (string_of_Z quarter)
                       (String.append " " (string_of_Z year))).

(** [for (let quarter = 1; quarter <= 4; quarter++)] of one year, run on
    the quarters still to visit: it breaks in the current year at the
    first quarter above [Math.ceil(new Date().getMonth() / 3)], and
    pushes an item for a quarter whose query has a row. *)
Fixpoint quarterLoop {A} (item : Z -> Z -> Actual -> A) (kpiId : uuid)
         (currentYear year : Z) (quarters : list Z) (historicalData : list A)
  : Async (list A) :=
  match quarters with
  | [] => ret historicalData
  | quarter :: rest =>
      d <- new_Date ;;
      if (year =? currentYear)%Z && (quarter >? Math_ceil_div3 (getMonth d))%Z
      then ret historicalData
      else
        actuals <- getActuals kpiId year (Some quarter) ;;
        quarterLoop item kpiId currentYear year rest
          match actuals with
          | a :: _ => historicalData ++ [item year quarter a]
          | [] => historicalData
          end
  end.

(** [for (let year = currentYear - 1; year <= currentYear; year++)]. *)
Definition yearLoop {A} (item : Z -> Z -> Actual -> A) (kpiId : uuid)
           (currentYear : Z) : Async (list A) :=
  h <- quarterLoop item kpiId currentYear (currentYear - 1) [1; 2; 3; 4]%Z [] ;;
  quarterLoop item kpiId currentYear currentYear [1; 2; 3; 4]%Z h.

(** [l.reduce((sum, x, index) => f(sum, x, index), init)]. *)
Fixpoint reduce_from {A B} (f : B -> A -> nat -> B) (l : list A)
         (index : nat) (acc : B) : B :=
  match l with
  | [] => acc
  | x :: l' => reduce_from f l' (S index) (f acc x index)
  end.

Definition reduce {A B} (f : B -> A -> nat -> B) (l : list A) (init : B) : B :=
  reduce_from f l 0 init.

Local Open Scope float_scope.

(** The least-squares line through the points (index, value). *)
Definition regression (values : list number) : number * number :=
  let n := of_nat (List.length values) in
  let sumX := reduce (fun sum _ index => sum + of_nat index) values 0 in
  let sumY := reduce (fun sum value _ => sum + value) values 0 in
  let sumXY := reduce (fun sum value index => sum + of_nat index * value) values 0 in
  let sumXX := reduce (fun sum _ index => sum + of_nat index * of_nat index) values 0 in
  let slope := (n * sumXY - sumX * sumY) / (n * sumXX - sumX * sumX) in
  let intercept := (sumY - slope * sumX) / n in
  (slope, intercept).

(** The confidence of the forecast point [i] steps ahead, as pushed. *)
Definition forecastConfidence (i : nat) : number :=
  let confidence := Math_max 0.6 (1 - of_nat i * 0.1) in
  Math_round (confidence * 100) / 100.

(** One turn of [for (let i = 0; i < 4; i++)]. *)
Definition forecastPoint (length : nat) (slope intercept : number) (i : nat)
  : Async ForecastPoint :=
  let nextIndex := of_nat (length + i) in
  let predictedValue := intercept + slope * nextIndex in
  today <- new_Date ;;
  let futureDate := setMonth today (getMonth today + (Z.of_nat i + 1) * 3)%Z in
  let quarter := Math_ceil_div3 (getMonth futureDate + 1) in
  let year := getFullYear futureDate in
  ret (mkForecastPoint (periodLabel quarter year)
                       (Math_max 0 predictedValue)
                       (forecastConfidence i)).

Definition trendOf (slope : number) : Trend :=
  if PrimFloat.ltb 0.5 slope then increasing
  else if PrimFloat.ltb slope (-0.5) then decreasing
  else stable.

Definition recommendationOf (trend : Trend) : string :=
  match trend with
  | decreasing => "Performance is trending downward. Consider implementing corrective measures to improve KPI performance."
  | increasing => "Performance is trending upward. Continue current strategies and consider scaling successful initiatives."
  | stable => "Performance is stable. Monitor for any changes and consider optimization opportunities."
  end.

Definition generateForecast (kpiId : uuid) : Async ForecastResult :=
  tryCatch
    (today <- new_Date ;;
     let currentYear := getFullYear today in
     historicalData <-
       yearLoop (fun year quarter a =>
                   mkHistoricalDatum (periodLabel quarter year)
                                     (act_actualValue a)
                                     (mkDate year ((quarter - 1) * 3) 1))
                kpiId currentYear ;;
     if (List.length historicalData <? 2)%nat
     then throw (MkError "Insufficient historical data for forecasting")
     else
       let '(slope, intercept) := regression (map hd_value historicalData) in
       forecast <- mapM (forecastPoint (List.length historicalData) slope intercept)
                        [0; 1; 2; 3]%nat ;;
       let trend := trendOf slope in
       ret (mkForecastResult kpiId forecast trend (recommendationOf trend)))
    (fun error =>
       console_error "Forecast generation error:" error ;;;
       throw (MkError "Failed to generate forecast")).

(** The percentage change of a scenario's input over the current value. *)
Definition changePercentOf (currentValue inputValue : number) : number :=
  if PrimFloat.ltb 0 currentValue
  then ((inputValue - currentValue) / currentValue) * 100
  else 0.

Definition impactOf (changePercent : number) : Impact :=
  if PrimFloat.ltb 5 changePercent then positive
  else if PrimFloat.ltb changePercent (-5) then negative
  else neutral.

(** The callback of [scenarioData.map]. *)
Definition projectScenario (currentValue : number) (scenario : Scenario)
           (index : nat) : ScenarioOutcome :=
  let inputValue := number_or_zero (sc_value scenario) in
  let changePercent := changePercentOf currentValue inputValue in
  let projectedOutcome := inputValue * (1 + changePercent * 0.1) in
  let impact := impactOf changePercent in
  let confidence := Math_max 0.5 (1 - Math_abs changePercent / 100) in
  mkScenarioOutcome
    (string_or (sc_name scenario)
               (String.append "Scenario " (string_of_nat (index + 1))))
    inputValue
    (Math_round (projectedOutcome * 100) / 100)
    impact
    (Math_round (confidence * 100) / 100).

Fixpoint map_indexed {A B} (f : A -> nat -> B) (l : list A) (index : nat) : list B :=
  match l with
  | [] => []
  | x :: l' => f x index :: map_indexed f l' (S index)
  end.

Definition isImpact (i : Impact) (s : ScenarioOutcome) : bool :=
  match so_impact s, i with
  | positive, positive | negative, negative | neutral, neutral => true
  | _, _ => false
  end.

Definition recommendationsOf (scenarios : list ScenarioOutcome) : list string :=
  let positiveScenarios := filter (isImpact positive) scenarios in
  let negativeScenarios := filter (isImpact negative) scenarios in
  let r1 :=
    match positiveScenarios with
    | [] => []
    | _ => [String.append "Consider implementing strategies similar to: "
                          (join ", " (map so_name positiveScenarios))]
    end in
  let r2 :=
    match negativeScenarios with
    | [] => r1
    | _ => r1 ++ [String.append "Avoid strategies that could lead to: "
                                (join ", " (map so_name negativeScenarios))]
    end in
  match r2 with
  | [] => ["All scenarios show neutral impact. Consider more aggressive strategies for improvement."%string]
  | _ => r2
  end.

Definition runScenarioTest (kpiId : uuid) (scenarioData : list Scenario)
  : Async ScenarioTestResult :=
  tryCatch
    (kpi <- getKPI kpiId ;;
     match kpi with
     | None => throw (MkError "KPI not found")
     | Some _ =>
         today <- new_Date ;;
         let currentYear := getFullYear today in
         let currentQuarter := Math_ceil_div3 (getMonth today + 1) in
         currentActuals <- getActuals kpiId currentYear (Some currentQuarter) ;;
         let currentValue :=
           match currentActuals with
           | a :: _ => act_actualValue a
           | [] => 0
           end in
         let scenarios := map_indexed (projectScenario currentValue) scenarioData 0 in
         ret (mkScenarioTestResult kpiId scenarios (recommendationsOf scenarios))
     end)
    (fun error =>
       console_error "Scenario test error:" error ;;;
       throw (MkError "Failed to run scenario test")).

(** The four locals [alertType], [severity], [title] and [description] of
    [checkThresholds]; an [alertType] of [None] is the empty string. *)
Record AlertDraft := mkAlertDraft
  { alertType : option AlertType; severity : Severity; title : string;
    description : Template }.

Local Open Scope string_scope.

(** "Determine alert based on threshold breach": the if-chain. *)
Definition determineAlert (name : string) (actualValue : number)
           (threshold : Threshold) (targetValue : number) : AlertDraft :=
  if PrimFloat.ltb actualValue (th_red threshold * targetValue / 100)%float then
    mkAlertDraft (Some threshold_breach) critical
      ("Critical: " ++ name ++ " Below Red Threshold")
      [Text name; Text " value ("; Num actualValue;
       Text ") has fallen below critical threshold ("; Num (th_red threshold);
       Text "% of target: "; Num targetValue; Text ")"]
  else if PrimFloat.ltb actualValue (th_amber threshold * targetValue / 100)%float then
    mkAlertDraft (Some threshold_breach) high
      ("Warning: " ++ name ++ " Below Amber Threshold")
      [Text name; Text " value ("; Num actualValue;
       Text ") has fallen below warning threshold ("; Num (th_amber threshold);
       Text "% of target: "; Num targetValue; Text ")"]
  else if PrimFloat.ltb (targetValue * 1.1)%float actualValue then
    mkAlertDraft (Some target_exceeded) low
      ("Success: " ++ name ++ " Exceeded Target")
      [Text name; Text " value ("; Num actualValue;
       Text ") has exceeded target ("; Num targetValue; Text ") by ";
       Num (Math_round (((actualValue - targetValue) / targetValue) * 100)%float);
       Text "%"]
  else
    mkAlertDraft None low "" [].

Definition checkThresholds (kpiId : uuid) (actualValue : number) : Async unit :=
  tryCatch
    (kpi <- getKPI kpiId ;;
     match kpi with
     | None => ret tt
     | Some kpi =>
         today <- new_Date ;;
         let currentYear := getFullYear today in
         let currentQuarter := Math_ceil_div3 (getMonth today + 1) in
         targets <- getTargets kpiId currentYear (Some currentQuarter) ;;
         match targets with
         | [] => ret tt
         | target :: _ =>
             let threshold := tgt_threshold target in
             let targetValue := tgt_targetValue target in
             let name := kpi_name (kwd_kpi kpi) in
             let draft := determineAlert name actualValue threshold targetValue in
             match alertType draft with
             | Some type =>
                 createAlert
                   (mkInsertAlert type (severity draft) (title draft)
                                  (description draft) (Some kpiId)
                                  (Some (kpi_departmentId (kwd_kpi kpi)))
                                  (Some false) (Some false)) ;;;
                 console_log [Text "Alert created for KPI "; Text name;
                              Text ": "; Text (title draft)]
             | None => ret tt
             end
         end
     end)
    (fun error => console_error "Threshold check error:" error).

(** The test of [detectAnomalies] on the gathered series: fewer than 3
    points are no anomaly; otherwise the last point is compared with the
    mean and the population standard deviation of the two before it.
    The second component is the mean, which the alert text quotes. *)
Definition anomalyTest (historicalData : list number) : option (bool * number * number) :=
  if (List.length historicalData <? 3)%nat then None
  else
    let recent := nth 0 (slice historicalData (-1) None) PrimFloat.nan in
    let previous := slice historicalData (-3) (Some (-1)%Z) in
    match previous with
    | [] => None
    | _ =>
        let length := of_nat (List.length previous) in
        let avgPrevious :=
          (reduce (fun sum val _ => sum + val) previous 0 / length)%float in
        let stdDev :=
          Math_sqrt (reduce (fun sum val _ => sum + Math_pow2 (val - avgPrevious))
                            previous 0 / length)%float in
        let isAnomaly :=
          PrimFloat.ltb (2 * stdDev)%float (Math_abs (recent - avgPrevious)%float) in
        Some (isAnomaly, recent, avgPrevious)
    end.

Definition detectAnomalies (kpiId : uuid) : Async bool :=
  tryCatch
    (today <- new_Date ;;
     let currentYear := getFullYear today in
     historicalData <- yearLoop (fun _ _ a => act_actualValue a) kpiId currentYear ;;
     match anomalyTest historicalData with
     | None => ret false
     | Some (isAnomaly, recent, avgPrevious) =>
         (if isAnomaly then
            kpi <- getKPI kpiId ;;
            match kpi with
            | Some kpi =>
                let name := kpi_name (kwd_kpi kpi) in
                createAlert
                  (mkInsertAlert anomaly_detected medium
                     ("Anomaly Detected: " ++ name)
                     [Text "Unusual performance detected for "; Text name;
                      Text ". Current value ("; Num recent;
                      Text ") significantly differs from recent trend (avg: ";
                      Num (Math_round (avgPrevious * 100) / 100)%float; Text ")"]
                     (Some kpiId) (Some (kpi_departmentId (kwd_kpi kpi)))
                     (Some false) (Some false)) ;;;
                ret tt
            | None => ret tt
            end
          else ret tt) ;;;
         ret isAnomaly
     end)
    (fun error =>
       console_error "Anomaly detection error:" error ;;;
       ret false).

End AnalyticsService.

Import AnalyticsService.

(** ** [server/routes.ts]: submitting an actual, updating an alert *)

Module Routes.

Local Open Scope string_scope.

(** What a handler sends: the status code and the JSON body. *)
Inductive Json :=
| JActual (a : Actual)
| JAlert (a : option Alert)
| JMessage (message : string).

Record Response := mkResponse { res_status : Z; res_body : Json }.

(** The body of [POST /api/actuals] as the insert schema reads it; a
    required column that is missing makes [parse] throw. The record holds
    the columns a submission sends. The schema also lets [status] and the
    review columns of a body through to the insert; a body carrying them is
    outside this record, so the [act_status] of a stored row is the column
    default of a body without them, and nothing is proved of the status a
    request can store. *)
Record ActualBody := mkActualBody
  { body_kpiId : option uuid; body_targetId : option uuid;
    body_actualValue : option number; body_comments : option string }.

Definition insertActualSchema_parse (body : ActualBody) (submittedBy : uuid)
           (evidenceFiles : list string) : Async InsertActual :=
  match body_kpiId body, body_targetId body, body_actualValue body with
  | Some kpiId, Some targetId, Some actualValue =>
      ret (mkInsertActual kpiId targetId actualValue submittedBy evidenceFiles
                          (body_comments body))
  | _, _, _ => throw (MkError "ZodError")
  end.

(** [app.post("/api/actuals", ...)], past authentication and upload. *)
Definition postActuals (user : uuid) (body : ActualBody) (files : list string)
  : Async Response :=
  tryCatch
    (validatedData <- insertActualSchema_parse body user files ;;
     actual <- createActual validatedData ;;
     checkThresholds (act_kpiId actual) (act_actualValue actual) ;;;
     createAuditLog (mkAuditLog user "submit" "actual" (act_id actual)) ;;;
     ret (mkResponse 201 (JActual actual)))
    (fun error =>
       console_error "Submit actual error:" error ;;;
       ret (mkResponse 400 (JMessage "Invalid submission data"))).

(** The body of [PATCH /api/alerts/:id]: either field may be absent. *)
Record AlertBody := mkAlertBody
  { body_isRead : option bool; body_isResolved : option bool }.

(** The [updates] object the handler fills in. *)
Definition alertUpdates (user : uuid) (nowTime : Z) (body : AlertBody) : AlertUpdate :=
  let updates := mkAlertUpdate None None None None in
  let updates :=
    match body_isRead body with
    | Some isRead =>
        mkAlertUpdate (Some isRead) (upd_isResolved updates)
                      (upd_resolvedBy updates) (upd_resolvedAt updates)
    | None => updates
    end in
  match body_isResolved body with
  | Some isResolved =>
      mkAlertUpdate (upd_isRead updates) (Some isResolved) (Some user)
                    (Some nowTime)
  | None => updates
  end.

(** [app.patch("/api/alerts/:id", ...)], past authentication. *)
Definition patchAlert (user : uuid) (id : uuid) (body : AlertBody)
  : Async Response :=
  tryCatch
    (t <- Date_now ;;
     alert <- updateAlert id (alertUpdates user t body) ;;
     ret (mkResponse 200 (JAlert alert)))
    (fun error =>
       console_error "Update alert error:" error ;;;
       ret (mkResponse 500 (JMessage "Failed to update alert"))).

End Routes.

Import Routes.

(** ** [server/middleware/auth.ts]: the guards of the routes *)

Module Auth.

(** [req.user], as [authMiddleware] fills it in from the token. *)
Record AuthUser := mkAuthUser
  { au_id : uuid; au_username : string; au_email : string; au_role : string;
    au_departmentId : option uuid }.

(** What the guards read and write of a request. *)
Record Request := mkRequest
  { req_authorization : option string; req_user : option AuthUser }.

(** A middleware answers the request itself, or calls [next()]. *)
Inductive Step :=
| Respond (res : Response)
| Next (req : Request).

(** [s.substring(n)]. *)
Definition substring_from (n : nat) (s : string) : string :=
  String.substring n (String.length s - n) s.

(** [jwt_verify token] is the payload [jwt.verify(token, JWT_SECRET)]
    decodes, and [None] when it throws. *)
Definition authMiddleware (jwt_verify : string -> option AuthUser) (req : Request)
  : Step :=
  match req_authorization req with
  | None => Respond (mkResponse 401 (JMessage "No token provided"))
  | Some authHeader =>
      if String.eqb authHeader "" || negb (String.prefix "Bearer " authHeader)
      then Respond (mkResponse 401 (JMessage "No token provided"))
      else
        let token := substring_from 7 authHeader in
        match jwt_verify token with
        | Some decoded =>
            Next (mkRequest (req_authorization req)
                            (Some (mkAuthUser (au_id decoded) (au_username decoded)
                                              (au_email decoded) (au_role decoded)
                                              (au_departmentId decoded))))
        | None => Respond (mkResponse 401 (JMessage "Invalid token"))
        end
  end.

Definition requireRole (allowedRoles : list string) (req : Request) : Step :=
  match req_user req with
  | None => Respond (mkResponse 401 (JMessage "Authentication required"))
  | Some user =>
      if existsb (String.eqb (au_role user)) allowedRoles then Next req
      else Respond (mkResponse 403 (JMessage "Insufficient permissions"))
  end.

(** [app.METHOD(path, ...middlewares, handler)]: the middlewares run in
    order, each on the request the one before passed on. *)
Fixpoint guarded (middlewares : list (Request -> Step))
         (handler : Request -> Async Response) (req : Request) : Async Response :=
  match middlewares with
  | [] => handler req
  | middleware :: rest =>
      match middleware req with
      | Respond res => ret res
      | Next req' => guarded rest handler req'
      end
  end.

(** [app.post("/api/actuals", authMiddleware, upload..., handler)]; reading
    [req.user!.id] of a request without a user throws inside the [try]. *)
Definition route_postActuals (jwt_verify : string -> option AuthUser)
           (body : ActualBody) (files : list string) : Request -> Async Response :=
  guarded [authMiddleware jwt_verify]
    (fun req =>
       match req_user req with
       | Some user => postActuals (au_id user) body files
       | None =>
           console_error "Submit actual error:" (MkError "TypeError") ;;;
           ret (mkResponse 400 (JMessage "Invalid submission data"))
       end).

(** [app.patch("/api/alerts/:id", authMiddleware, handler)]; [req.user!.id]
    is read only when the body carries [isResolved]. *)
Definition route_patchAlert (jwt_verify : string -> option AuthUser)
           (id : uuid) (body : AlertBody) : Request -> Async Response :=
  guarded [authMiddleware jwt_verify]
    (fun req =>
       match req_user req, body_isResolved body with
       | Some user, _ => patchAlert (au_id user) id body
       | None, None => patchAlert "" id body
       | None, Some _ =>
           console_error "Update alert error:" (MkError "TypeError") ;;;
           ret (mkResponse 500 (JMessage "Failed to update alert"))
       end).

End Auth.

Import Auth.

(** ** [server/storage.ts]: the dashboard queries *)

Module Dashboard.

Record QuickStatsTrends := mkQuickStatsTrends
  { qs_overallTrend : number; qs_onTrackPercentage : number;
    qs_needAttentionCount : number; qs_criticalAlertsCount : number }.

Record QuickStatsData := mkQuickStatsData
  { qs_overallPerformance : number; qs_activeKPIs : Z; qs_departments : Z;
    qs_alerts : Z; qs_trends : QuickStatsTrends }.

(** The three [count()] queries of [getQuickStats], in the order made. *)
Inductive CountQuery := CountActiveKPIs | CountActiveDepartments | CountOpenAlerts.

Definition count_rows {A} (keep : A -> bool) (rows : list A) : Z :=
  Z.of_nat (List.length (filter keep rows)).

(** [rejected q] tells whether the database rejects the count [q]. *)
Definition count_query {A} (rejected : CountQuery -> bool) (q : CountQuery)
           (rows : Database -> list A) (keep : A -> bool) : Async Z :=
  fun w =>
    if rejected q then (Thrown (MkError "database unavailable"), w)
    else (Returned (count_rows keep (rows (db w))), w).

Definition getQuickStats (rejected : CountQuery -> bool) : Async QuickStatsData :=
  kpiCount <- count_query rejected CountActiveKPIs kpis kpi_isActive ;;
  deptCount <- count_query rejected CountActiveDepartments departments dept_isActive ;;
  alertCount <- count_query rejected CountOpenAlerts alerts
                            (fun a => Bool.eqb (al_isResolved a) false) ;;
  ret (mkQuickStatsData 78.5 kpiCount deptCount alertCount
                        (mkQuickStatsTrends 5.2 89 3 2)).

(** "Get KPIs that are off-track or critical". *)
Definition getCriticalKPIs : Async (list KPIWithDetails) := getKPIs None.

End Dashboard.

Import Dashboard.

(** ** Concrete worlds the examples run in *)

Module Fixtures.

Local Open Scope string_scope.

Definition ops : Department := mkDepartment "d1" "Operations" "OPS" true.
Definition growth : Pillar := mkPillar "p1" "Growth".
Definition revenue : KPI := mkKPI "k1" "Revenue" "p1" "d1" "quarterly" true.

(** The threshold and target of the examples: green 80, amber 60, red 40
    against a target of 100. *)
Definition rag : Threshold := mkThreshold 80 60 40.

Definition target_of (kpiId id : uuid) (year quarter : Z) : Target :=
  mkTarget id kpiId year (Some quarter) 100 rag.

Definition actual_of (kpiId targetId : uuid) (value : number) : Actual :=
  mkActual (String.append "a-" targetId) kpiId targetId value "u1" [] None "approved".

Definition always_up (op : StorageOp) : bool := false.


(** Successive results of [Math.random()]. *)
Definition dice (n : nat) : number :=
  nth n [0.5; 0.75; 0.5; 0.25; 0.25; 0.5; 0.5; 0.75; 0.75]%float 0%float.

(** 15 May 2024, in the second quarter. *)
Definition may2024 : Date := mkDate 2024 4 15.

Definition world_of (d : Database) (down : StorageOp -> bool) (today : Date) : World :=
  mkWorld d down today 1715760000000 dice 0 0 [].

(** One KPI with a target for the current quarter, no alert yet. *)
Definition base_db : Database :=
  mkDatabase [ops] [growth] [revenue] [target_of "k1" "t6" 2024 2] [] [] [].

Definition base_world : World := world_of base_db always_up may2024.

(** The targets of a KPI for the six quarters from Q1 2023 to Q2 2024. *)
Definition history_targets (kpiId : uuid) : list Target :=
  [target_of kpiId "t1" 2023 1; target_of kpiId "t2" 2023 2;
   target_of kpiId "t3" 2023 3; target_of kpiId "t4" 2023 4;
   target_of kpiId "t5" 2024 1; target_of kpiId "t6" 2024 2].

(** One actual a quarter, from Q1 2023 on, with the given values. *)
Definition series_actuals (kpiId : uuid) (values : list number) : list Actual :=
  map (fun p => actual_of kpiId (tgt_id (fst p)) (snd p))
      (combine (history_targets kpiId) values).

Definition series_db (values : list number) : Database :=
  mkDatabase [ops] [growth] [revenue] (history_targets "k1")
             (series_actuals "k1" values) [] [].

(** A world whose quarters from Q1 2023 on hold the given series. *)
Definition series_world (values : list number) : World :=
  world_of (series_db values) always_up may2024.


(** A KPI of the KPI table whose pillar "p9" has no row in the pillar
    table, with targets and the series 50, 52, 90. *)
Definition churn : KPI := mkKPI "k2" "Churn" "p9" "d1" "quarterly" true.

Definition orphan_world : World :=
  world_of (mkDatabase [ops] [growth] [revenue; churn] (history_targets "k2")
                       (series_actuals "k2" [50; 52; 90]%float) [] [])
           always_up may2024.

(** A world whose current quarter holds an actual of 100 for the KPI. *)
Definition scenario_world : World :=
  world_of (mkDatabase [ops] [growth] [revenue] (history_targets "k1")
                       [actual_of "k1" "t6" 100] [] [])
           always_up may2024.

End Fixtures.

Import Fixtures.
Local Open Scope string_scope.
Local Open Scope list_scope.

(** * What the properties speak of

    The rows, worlds and outcomes the statements below name, each read off
    the code above. *)

(** The band an alert decision stands for, the worst first: below the red
    cutoff, below the amber cutoff, within bounds, above 110% of target. *)
Definition alertBand (d : AlertDraft) : nat :=
  match alertType d, severity d with
  | Some threshold_breach, critical => 0
  | Some threshold_breach, _ => 1
  | None, _ => 2
  | Some _, _ => 3
  end.

(** The row [createAlert] stores for an insert in a world. *)
Definition storedAlert (ins : InsertAlert) (w : World) : Alert :=
  mkAlert (String.append "row-" (string_of_nat (nextId w)))
          (ins_type ins) (ins_severity ins) (ins_title ins)
          (ins_description ins) (ins_kpiId ins) (ins_departmentId ins)
          (bool_default (ins_isRead ins) false)
          (bool_default (ins_isResolved ins) false)
          None None (nowTime w).

(** The insert [checkThresholds] hands to the alert store, if any. *)
Definition thresholdInsert (kpiId : uuid) (kpi : KPIWithDetails)
           (target : Target) (actualValue : number) : option InsertAlert :=
  let draft := determineAlert (kpi_name (kwd_kpi kpi)) actualValue
                              (tgt_threshold target) (tgt_targetValue target) in
  match alertType draft with
  | Some type =>
      Some (mkInsertAlert type (severity draft) (title draft)
                          (description draft) (Some kpiId)
                          (Some (kpi_departmentId (kwd_kpi kpi)))
                          (Some false) (Some false))
  | None => None
  end.

(** The quarter [checkThresholds] and [runScenarioTest] take as current. *)
Definition currentQuarterOf (w : World) : Z := Math_ceil_div3 (getMonth (now w) + 1).

(** The alerts a call of [checkThresholds] adds, read off the world it
    starts in: one when the KPI and a target of the current quarter are
    found, the decision names an alert and the store takes it. *)
Definition thresholdAlerts (kpiId : uuid) (actualValue : number) (w : World)
  : list Alert :=
  match fst (getKPI kpiId w) with
  | Returned (Some kpi) =>
      match fst (getTargets kpiId (getFullYear (now w))
                            (Some (currentQuarterOf w)) w) with
      | Returned (target :: _) =>
          match thresholdInsert kpiId kpi target actualValue with
          | Some ins =>
              if unavailable w OpCreateAlert then [] else [storedAlert ins w]
          | None => []
          end
      | _ => []
      end
  | _ => []
  end.

(** The type and severity of the alerts in a world's alert table. *)
Definition alertKinds (w : World) : list (AlertType * Severity) :=
  map (fun a => (al_type a, al_severity a)) (alerts (db w)).


(** The series [detectAnomalies] gathers in a world, or the error of the
    query that failed. *)
Definition anomalySeries (kpiId : uuid) (w : World) : Outcome (list number) :=
  fst (yearLoop (fun _ _ a => act_actualValue a) kpiId (getFullYear (now w)) w).

(** The insert [detectAnomalies] hands to the alert store. *)
Definition anomalyInsert (kpiId : uuid) (kpi : KPIWithDetails)
           (recent avgPrevious : number) : InsertAlert :=
  mkInsertAlert anomaly_detected medium
    (String.append "Anomaly Detected: " (kpi_name (kwd_kpi kpi)))
    [Text "Unusual performance detected for "; Text (kpi_name (kwd_kpi kpi));
     Text ". Current value ("; Num recent;
     Text ") significantly differs from recent trend (avg: ";
     Num (Math_round (avgPrevious * 100) / 100)%float; Text ")"]
    (Some kpiId) (Some (kpi_departmentId (kwd_kpi kpi)))
    (Some false) (Some false).

(** What a call of [detectAnomalies] returns and the alerts it adds, read
    off the world it starts in. *)
Definition anomalyOutcome (kpiId : uuid) (w : World) : bool * list Alert :=
  match anomalySeries kpiId w with
  | Returned historicalData =>
      match anomalyTest historicalData with
      | Some (true, recent, avgPrevious) =>
          match fst (getKPI kpiId w) with
          | Returned (Some kpi) =>
              if unavailable w OpCreateAlert then (false, [])
              else (true, [storedAlert (anomalyInsert kpiId kpi recent avgPrevious) w])
          | Returned None => (true, [])
          | Thrown _ => (false, [])
          end
      | _ => (false, [])
      end
  | Thrown _ => (false, [])
  end.

(** The mean and the population standard deviation of two points, as
    [detectAnomalies] computes them, the sums starting from 0. *)
Definition meanOfTwo (x y : number) : number := ((0 + x + y) / 2)%float.

Definition stdDevOfTwo (x y : number) : number :=
  Math_sqrt ((0 + Math_pow2 (x - meanOfTwo x y) + Math_pow2 (y - meanOfTwo x y)) / 2)%float.

(** The alert table after [PATCH /api/alerts/:id], read off the world the
    request arrives in. *)
Definition patchedAlerts (user id : uuid) (body : AlertBody) (w : World) : list Alert :=
  let updates := alertUpdates user (nowTime w) body in
  if noValues updates || unavailable w OpUpdateAlert then alerts (db w)
  else map (fun a => if String.eqb (al_id a) id then applyUpdate updates a else a)
           (alerts (db w)).

(** The row of a request that carries [isResolved], after the update. *)
Definition withResolution (user : uuid) (time : Z) (isRead : option bool)
           (isResolved : bool) (a : Alert) : Alert :=
  mkAlert (al_id a) (al_type a) (al_severity a) (al_title a) (al_description a)
          (al_kpiId a) (al_departmentId a)
          (option_default isRead (al_isRead a))
          isResolved (Some user) (Some time) (al_createdAt a).

(** The row of a request that carries [isRead] only, after the update. *)
Definition withRead (isRead : bool) (a : Alert) : Alert :=
  mkAlert (al_id a) (al_type a) (al_severity a) (al_title a) (al_description a)
          (al_kpiId a) (al_departmentId a)
          isRead (al_isResolved a) (al_resolvedBy a) (al_resolvedAt a)
          (al_createdAt a).

(** An alert as it is created: unread, unresolved, with no resolver. *)
Definition unreadUnresolved (a : Alert) : Prop :=
  al_isRead a = false /\ al_isResolved a = false
  /\ al_resolvedBy a = None /\ al_resolvedAt a = None.

(** The bodies of the two requests of the alert's life. *)
Definition markRead : AlertBody := mkAlertBody (Some true) None.
Definition markResolved : AlertBody := mkAlertBody None (Some true).

(** The world after a submission of 30 raised the critical alert "row-0",
    and that world after user "u1" resolved the alert. *)
Definition alert_world : World := snd (checkThresholds "k1" 30 base_world).
Definition resolved_world : World :=
  snd (patchAlert "u1" "row-0" markResolved alert_world).

(** The key of an alert with its read and resolution columns. *)
Definition resolutionOf (a : Alert) : uuid * bool * bool * option uuid * option Z :=
  (al_id a, al_isRead a, al_isResolved a, al_resolvedBy a, al_resolvedAt a).

(** The history [generateForecast] gathers in a world, or the error of the
    query that failed. *)
Definition forecastHistory (kpiId : uuid) (w : World) : Outcome (list HistoricalDatum) :=
  fst (yearLoop (fun year quarter a =>
                   mkHistoricalDatum (periodLabel quarter year) (act_actualValue a)
                                     (mkDate year ((quarter - 1) * 3) 1))
                kpiId (getFullYear (now w)) w).

(** The identifier and the four computed values of each department a call
    of [getDepartmentPerformance] returned. *)
Definition scoresOf (o : Outcome (list DepartmentPerformance))
  : list (uuid * number * Status * number * number) :=
  match o with
  | Returned l =>
      map (fun p => (dp_id p, dp_score p, dp_status p, dp_kpiCount p, dp_trend p)) l
  | Thrown _ => []
  end.

(** ** More rows, worlds and outcomes, for the further properties *)

(** A world whose only target of the KPI is a yearly one, of 100 for 2024. *)
Definition yearly_world : World :=
  world_of (mkDatabase [ops] [growth] [revenue]
                       [mkTarget "ty" "k1" 2024 None 100 rag] [] [] [])
           always_up may2024.

Definition actuals_down (op : StorageOp) : bool :=
  match op with OpGetActuals => true | _ => false end.

(** The point [forecastPoint] pushes, read off the date of the call. *)
Definition forecastPointAt (today : Date) (length : nat) (slope intercept : number)
           (i : nat) : ForecastPoint :=
  let futureDate := setMonth today (getMonth today + (Z.of_nat i + 1) * 3)%Z in
  mkForecastPoint
    (periodLabel (Math_ceil_div3 (getMonth futureDate + 1)) (getFullYear futureDate))
    (Math_max 0 (intercept + slope * of_nat (length + i)))
    (forecastConfidence i).

(** What [generateForecast] computes before its [catch]: the result, or
    the error its handler is given. *)
Definition forecastOutcome (kpiId : uuid) (w : World) : Outcome ForecastResult :=
  match forecastHistory kpiId w with
  | Returned historicalData =>
      if (List.length historicalData <? 2)%nat
      then Thrown (MkError "Insufficient historical data for forecasting")
      else
        let '(slope, intercept) := regression (map hd_value historicalData) in
        Returned (mkForecastResult kpiId
                    (map (forecastPointAt (now w) (List.length historicalData)
                                          slope intercept)
                         [0; 1; 2; 3]%nat)
                    (trendOf slope) (recommendationOf (trendOf slope)))
  | Thrown e => Thrown e
  end.

(** The forecast for the falling series 40, 30, 20, 10, whose line reaches
    zero in the next quarter and would go below it after. *)
Definition falling_forecast : ForecastResult :=
  mkForecastResult "k1"
    [mkForecastPoint "Q3 2024" 0 1; mkForecastPoint "Q4 2024" 0 0.9;
     mkForecastPoint "Q1 2025" 0 0.8; mkForecastPoint "Q2 2025" 0 0.7]
    decreasing
    "Performance is trending downward. Consider implementing corrective measures to improve KPI performance.".

(** A point of the history of a year: the value of a stored actual of the
    KPI whose target row is of that year. *)
Definition pointOf (kpiId : uuid) (year : Z) (w : World) (value : number) : Prop :=
  exists a t,
    In a (actuals (db w)) /\ In t (targets (db w))
    /\ act_kpiId a = kpiId /\ act_targetId a = tgt_id t
    /\ tgt_year t = year /\ act_actualValue a = value.

(** What [runScenarioTest] computes before its [catch]: the result, or the
    error its handler is given. *)
Definition scenarioOutcome (kpiId : uuid) (scenarioData : list Scenario) (w : World)
  : Outcome ScenarioTestResult :=
  match fst (getKPI kpiId w) with
  | Returned (Some _) =>
      match fst (getActuals kpiId (getFullYear (now w)) (Some (currentQuarterOf w)) w) with
      | Returned currentActuals =>
          let currentValue :=
            match currentActuals with
            | a :: _ => act_actualValue a
            | [] => 0%float
            end in
          let scenarios := map_indexed (projectScenario currentValue) scenarioData 0 in
          Returned (mkScenarioTestResult kpiId scenarios (recommendationsOf scenarios))
      | Thrown e => Thrown e
      end
  | Returned None => Thrown (MkError "KPI not found")
  | Thrown e => Thrown e
  end.

(** Two scenarios, the second without a name or a value. *)
Definition two_scenarios : list Scenario :=
  [mkScenario (Some "Expand") (Some 120%float); mkScenario None None].

Definition two_outcomes : ScenarioTestResult :=
  mkScenarioTestResult "k1"
    [mkScenarioOutcome "Expand" 120 360 positive 0.8;
     mkScenarioOutcome "Scenario 2" 0 PrimFloat.neg_zero negative 0.5]
    ["Consider implementing strategies similar to: Expand";
     "Avoid strategies that could lead to: Scenario 2"].

(** The row [createActual] stores for a validated submission. *)
Definition storedActual (ins : InsertActual) (w : World) : Actual :=
  mkActual (String.append "row-" (string_of_nat (nextId w)))
           (ia_kpiId ins) (ia_targetId ins) (ia_actualValue ins)
           (ia_submittedBy ins) (ia_evidenceFiles ins) (ia_comments ins) "pending".

(** The world after [createActual] stored it. *)
Definition afterCreateActual (ins : InsertActual) (w : World) : World :=
  mkWorld (mkDatabase (departments (db w)) (pillars (db w)) (kpis (db w))
                      (targets (db w)) (actuals (db w) ++ [storedActual ins w])
                      (alerts (db w)) (auditLogs (db w)))
          (unavailable w) (now w) (nowTime w) (randoms w) (randomIndex w)
          (S (nextId w)) (console w).

(** The world after the threshold check of the stored submission. *)
Definition afterThresholds (ins : InsertActual) (w : World) : World :=
  snd (checkThresholds (ia_kpiId ins) (ia_actualValue ins) (afterCreateActual ins w)).

Definition add_auditLog (log : AuditLog) (w : World) : World :=
  with_db (mkDatabase (departments (db w)) (pillars (db w)) (kpis (db w))
                      (targets (db w)) (actuals (db w)) (alerts (db w))
                      (auditLogs (db w) ++ [log]))
          w.

Definition audit_down (op : StorageOp) : bool :=
  match op with OpCreateAuditLog => true | _ => false end.

(** The columns no request of the alert route writes. *)
Definition sameAlertIdentity (a a' : Alert) : Prop :=
  al_id a' = al_id a /\ al_type a' = al_type a /\ al_severity a' = al_severity a
  /\ al_title a' = al_title a /\ al_description a' = al_description a
  /\ al_kpiId a' = al_kpiId a /\ al_departmentId a' = al_departmentId a
  /\ al_createdAt a' = al_createdAt a.

Definition no_count_rejected (q : CountQuery) : bool := false.

(** A request that [authMiddleware] turns away: no header, a header that
    does not start with "Bearer ", or a token that does not verify. *)
Definition unauthenticated (jwt_verify : string -> option AuthUser) (req : Request)
  : Prop :=
  match req_authorization req with
  | None => True
  | Some authHeader =>
      String.prefix "Bearer " authHeader = false
      \/ jwt_verify (substring_from 7 authHeader) = None
  end.

(** A verifier that knows the token of one user, an analyst. *)
Definition analyst : AuthUser := mkAuthUser "u1" "ada" "ada@example.org" "user" (Some "d1").

Definition verify_analyst (token : string) : option AuthUser :=
  if String.eqb token "token-of-ada" then Some analyst else None.

(** The label of the quarter [k] quarters after the one of a date. *)
Definition quarterAfter (today : Date) (k : Z) : string :=
  periodLabel ((getMonth today / 3 + k) mod 4 + 1)
              (getFullYear today + (getMonth today / 3 + k) / 4).

(** 31 March 2024, the last day of a quarter. *)
Definition march31 : Date := mkDate 2024 2 31.

(** * Properties *)

(** ** The [Math] functions on sample arguments *)

Lemma Math_floor_values :
  map Math_floor [2.5; -2.5; 0.5; -0.5; 20; 39.99; 4503599627370497]%float
  = [2; -3; 0; -1; 20; 39; 4503599627370497]%float.
Proof. vm_compute. reflexivity. Qed.

Lemma Math_round_values :
  map Math_round [2.5; -2.5; 0.5; 1.5; -1.5; -1.6; 36000; 0.49999999999999994]%float
  = [3; -2; 1; 2; -1; -2; 36000; 0]%float.
Proof. vm_compute. reflexivity. Qed.

Lemma Math_ceil_div3_months :
  Forall (fun m => Math_ceil (of_Z m / 3) = of_Z (Math_ceil_div3 m))
         [0; 1; 2; 3; 4; 5; 6; 7; 8; 9; 10; 11; 12]%Z.
Proof. repeat constructor. Qed.

Lemma Math_max_values :
  (Math_max 0.6 1, Math_max 0.5 0.2, Math_max 0 (-3))
  = (1, 0.5, 0)%float.
Proof. vm_compute. reflexivity. Qed.

Lemma slice_values :
  slice [1; 2; 3; 4; 5]%Z (-3) (Some (-1)%Z) = [3; 4]%Z
  /\ slice [1; 2; 3; 4; 5]%Z (-1) None = [5]%Z
  /\ slice [1; 2]%Z (-3) (Some (-1)%Z) = [1]%Z.
Proof. repeat split. Qed.

Lemma setMonth_values :
  setMonth (mkDate 2024 4 15) 7 = mkDate 2024 7 15
  /\ setMonth (mkDate 2024 4 15) 13 = mkDate 2025 1 15
  /\ setMonth (mkDate 2024 0 31) 1 = mkDate 2024 2 2.
Proof. repeat split. Qed.

(** ** Order of JavaScript numbers

    [<] and [<=] on binary64 values, read through their specification on
    [spec_float]: a comparison with NaN is false, and on the other values
    the two are a strict and a weak total order. *)

Section NumberOrder.

Local Open Scope Z_scope.

Ltac order_cases :=
  repeat match goal with
    | |- context [Z.compare ?a ?b] => destruct (Z.compare_spec a b)
    | |- context [Pos.compare_cont Eq ?a ?b] =>
        change (Pos.compare_cont Eq a b) with (Pos.compare a b);
        destruct (Pos.compare_spec a b)
    | H : context [Z.compare ?a ?b] |- _ => destruct (Z.compare_spec a b)
    | H : context [Pos.compare_cont Eq ?a ?b] |- _ =>
        change (Pos.compare_cont Eq a b) with (Pos.compare a b) in H;
        destruct (Pos.compare_spec a b)
    end;
  subst; simpl in *; try discriminate; try lia; try reflexivity.

Lemma SFleb_ltb_trans (x y z : spec_float) :
  SFleb x y = true -> SFltb y z = true -> SFltb x z = true.
Proof.
  unfold SFleb, SFltb.
  destruct x as [sx|sx| |sx mx ex], y as [sy|sy| |sy my ey],
           z as [sz|sz| |sz mz ez];
    simpl; try discriminate; try reflexivity;
    repeat match goal with s : bool |- _ => destruct s end;
    simpl; try discriminate; try reflexivity;
    intros Hxy Hyz; order_cases.
Qed.

Lemma SFltb_leb_trans (x y z : spec_float) :
  SFltb x y = true -> SFleb y z = true -> SFltb x z = true.
Proof.
  unfold SFleb, SFltb.
  destruct x as [sx|sx| |sx mx ex], y as [sy|sy| |sy my ey],
           z as [sz|sz| |sz mz ez];
    simpl; try discriminate; try reflexivity;
    repeat match goal with s : bool |- _ => destruct s end;
    simpl; try discriminate; try reflexivity;
    intros Hxy Hyz; order_cases.
Qed.

End NumberOrder.

Lemma leb_ltb_trans (x y z : number) :
  PrimFloat.leb x y = true -> PrimFloat.ltb y z = true -> PrimFloat.ltb x z = true.
Proof.
  rewrite FloatAxioms.leb_spec, !FloatAxioms.ltb_spec. apply SFleb_ltb_trans.
Qed.

Lemma ltb_leb_trans (x y z : number) :
  PrimFloat.ltb x y = true -> PrimFloat.leb y z = true -> PrimFloat.ltb x z = true.
Proof.
  rewrite FloatAxioms.leb_spec, !FloatAxioms.ltb_spec. apply SFltb_leb_trans.
Qed.

(** ** Threshold evaluation *)

Lemma determineAlert_monotonic (name : string) (th : Threshold) (t a1 a2 : number) :
  PrimFloat.leb a1 a2 = true ->
  (alertBand (determineAlert name a1 th t)
     <= alertBand (determineAlert name a2 th t))%nat.
Proof.
  intros Hle. unfold determineAlert.
  destruct (PrimFloat.ltb a2 (th_red th * t / 100)) eqn:R2.
  { rewrite (leb_ltb_trans _ _ _ Hle R2). apply le_n. }
  destruct (PrimFloat.ltb a2 (th_amber th * t / 100)) eqn:A2.
  { rewrite (leb_ltb_trans _ _ _ Hle A2).
    destruct (PrimFloat.ltb a1 (th_red th * t / 100)); cbn; lia. }
  destruct (PrimFloat.ltb (t * 1.1) a2) eqn:E2.
  { destruct (PrimFloat.ltb a1 (th_red th * t / 100));
      [| destruct (PrimFloat.ltb a1 (th_amber th * t / 100));
         [| destruct (PrimFloat.ltb (t * 1.1) a1)]]; cbn; lia. }
  destruct (PrimFloat.ltb a1 (th_red th * t / 100)); [cbn; lia |].
  destruct (PrimFloat.ltb a1 (th_amber th * t / 100)); [cbn; lia |].
  destruct (PrimFloat.ltb (t * 1.1) a1) eqn:E1; [| cbn; lia].
  rewrite (ltb_leb_trans _ _ _ E1 Hle) in E2. discriminate.
Qed.

Lemma getKPIs_status (departmentId : option uuid) (w w' : World)
      (rows : list KPIWithDetails) :
  getKPIs departmentId w = (Returned rows, w') ->
  forall k, In k rows -> kwd_status k = amber /\ kwd_progress k = 75%float.
Proof.
  unfold getKPIs, select.
  destruct (unavailable w OpGetKPIs); [discriminate |].
  intros H k Hin. injection H as <- _.
  apply in_map_iff in Hin. destruct Hin as [[[kp p] dep] [<- _]].
  split; reflexivity.
Qed.

(** C9. For a target above 0 and a threshold triple with green >= amber >=
    red, raising the actual value never moves the alert decision of
    [checkThresholds] to a worse band (critical breach, high breach, no
    alert, target exceeded, in that order); and the status [getKPIs]
    returns for a KPI is amber whatever the actuals are, so it never
    decreases either. *)
Theorem C9_threshold_evaluation_monotonic
        (name : string) (th : Threshold) (targetValue a1 a2 : number) :
  PrimFloat.ltb 0 targetValue = true ->
  PrimFloat.leb (th_amber th) (th_green th) = true ->
  PrimFloat.leb (th_red th) (th_amber th) = true ->
  PrimFloat.leb a1 a2 = true ->
  (alertBand (determineAlert name a1 th targetValue)
     <= alertBand (determineAlert name a2 th targetValue))%nat
  /\ (forall departmentId w w' rows,
         getKPIs departmentId w = (Returned rows, w') ->
         forall k, In k rows -> kwd_status k = amber).
Proof.
  intros _ _ _ Hle. split.
  - apply determineAlert_monotonic, Hle.
  - intros departmentId w w' rows H k Hin.
    apply (getKPIs_status _ _ _ _ H k Hin).
Qed.

(** C9 at actual values 30 and 70, threshold 80/60/40 and target 100. *)
Lemma C9_witness :
  (alertBand (determineAlert "Revenue" 30 rag 100)
     <= alertBand (determineAlert "Revenue" 70 rag 100))%nat
  /\ (forall departmentId w w' rows,
         getKPIs departmentId w = (Returned rows, w') ->
         forall k, In k rows -> kwd_status k = amber).
Proof.
  apply (C9_threshold_evaluation_monotonic "Revenue" rag 100 30 70);
    reflexivity.
Defined.

(** ** Running a computation

    [run_step] unfolds the monad's operations at the head of a goal and
    splits on the next storage call that may be refused. *)

Ltac run_unfold :=
  cbv beta iota zeta delta
    [bind ret throw tryCatch query select read_db write_db new_Date Date_now
     gen_random_uuid console_log console_error];
  cbn [fst snd db unavailable now nowTime randoms randomIndex nextId console
       with_db with_console with_clock
       departments pillars kpis targets actuals alerts auditLogs set_alerts].

Ltac run_step op :=
  run_unfold;
  match goal with
  | |- context [if unavailable ?w op then _ else _] =>
      let H := fresh "Hup" in destruct (unavailable w op) eqn:H
  end;
  run_unfold.

(** ** The alert engine *)

Section AlertEngine.

Lemma checkThresholds_spec (kpiId : uuid) (actualValue : number) (w : World) :
  let w' := snd (checkThresholds kpiId actualValue w) in
  fst (checkThresholds kpiId actualValue w) = Returned tt
  /\ unavailable w' = unavailable w
  /\ nowTime w' = nowTime w
  /\ alerts (db w') = alerts (db w) ++ thresholdAlerts kpiId actualValue w
  /\ actuals (db w') = actuals (db w)
  /\ auditLogs (db w') = auditLogs (db w).
Proof.
  unfold thresholdAlerts, thresholdInsert, checkThresholds, getKPI,
    getTargets, createAlert, currentQuarterOf, storedAlert.
  run_step OpGetKPI; [ rewrite app_nil_r; repeat split; reflexivity |].
  destruct (filter _ (kpiJoin (db w))) as [| row rows];
    [ run_unfold; rewrite app_nil_r; repeat split; reflexivity |].
  run_step OpGetTargets; [ rewrite app_nil_r; repeat split; reflexivity |].
  destruct (filter _ (targets (db w))) as [| target rest];
    [ run_unfold; rewrite app_nil_r; repeat split; reflexivity |].
  destruct (alertType (determineAlert _ _ _ _)) as [type |];
    [| run_unfold; rewrite app_nil_r; repeat split; reflexivity ].
  run_step OpCreateAlert; [ rewrite app_nil_r |]; repeat split; reflexivity.
Qed.

End AlertEngine.

Lemma thresholdAlerts_at_most_one (kpiId : uuid) (actualValue : number) (w : World) :
  (List.length (thresholdAlerts kpiId actualValue w) <= 1)%nat.
Proof.
  unfold thresholdAlerts.
  destruct (fst (getKPI kpiId w)) as [[kpi |] | e]; try apply Nat.le_0_l.
  destruct (fst (getTargets _ _ _ w)) as [[| target rest] | e]; try apply Nat.le_0_l.
  destruct (thresholdInsert kpiId kpi target actualValue); try apply Nat.le_0_l.
  destruct (unavailable w OpCreateAlert); [apply Nat.le_0_l | apply le_n].
Qed.

(** C1 (as the code has it). A call of [checkThresholds] adds at most one
    alert, the one the first matching test of the decision names: below
    red% of target a critical threshold_breach, else below amber% of target
    a high threshold_breach, else above 110% of target a low
    target_exceeded, else none. With threshold 80/60/40 and target 100:
    actual 30 gives one critical threshold_breach, actual 70 gives no alert
    (70 is not below 60; actual 50 gives the high threshold_breach), actual
    115 gives one low target_exceeded, actual 90 gives no alert. *)
Theorem C1_checkThresholds_first_match :
  (forall kpiId actualValue w,
      alerts (db (snd (checkThresholds kpiId actualValue w)))
      = alerts (db w) ++ thresholdAlerts kpiId actualValue w
      /\ (List.length (thresholdAlerts kpiId actualValue w) <= 1)%nat)
  /\ (forall name actualValue threshold targetValue,
         let draft := determineAlert name actualValue threshold targetValue in
         let belowRed :=
           PrimFloat.ltb actualValue (th_red threshold * targetValue / 100) in
         let belowAmber :=
           PrimFloat.ltb actualValue (th_amber threshold * targetValue / 100) in
         let aboveTarget := PrimFloat.ltb (targetValue * 1.1) actualValue in
         (belowRed = true ->
          alertType draft = Some threshold_breach /\ severity draft = critical)
         /\ (belowRed = false -> belowAmber = true ->
             alertType draft = Some threshold_breach /\ severity draft = high)
         /\ (belowRed = false -> belowAmber = false -> aboveTarget = true ->
             alertType draft = Some target_exceeded /\ severity draft = low)
         /\ (belowRed = false -> belowAmber = false -> aboveTarget = false ->
             alertType draft = None))
  /\ alertKinds (snd (checkThresholds "k1" 30 base_world))
     = [(threshold_breach, critical)]
  /\ alertKinds (snd (checkThresholds "k1" 70 base_world)) = []
  /\ alertKinds (snd (checkThresholds "k1" 50 base_world))
     = [(threshold_breach, high)]
  /\ alertKinds (snd (checkThresholds "k1" 115 base_world))
     = [(target_exceeded, low)]
  /\ alertKinds (snd (checkThresholds "k1" 90 base_world)) = [].
Proof.
  split; [| split].
  - intros kpiId actualValue w. split.
    + apply (checkThresholds_spec kpiId actualValue w).
    + apply thresholdAlerts_at_most_one.
  - intros name actualValue threshold targetValue. cbv zeta.
    unfold determineAlert.
    destruct (PrimFloat.ltb actualValue (th_red threshold * targetValue / 100));
      destruct (PrimFloat.ltb actualValue (th_amber threshold * targetValue / 100));
      destruct (PrimFloat.ltb (targetValue * 1.1) actualValue);
      cbn; repeat split; intros; try discriminate; reflexivity.
  - repeat split; vm_compute; reflexivity.
Qed.

(** C1, the claim as written fails at actual 70: no alert is stored, as 70
    is not below the amber cutoff 60 * 100 / 100. *)
Lemma C1_actual_70_raises_no_alert :
  alerts (db (snd (checkThresholds "k1" 70 base_world))) = []
  /\ PrimFloat.ltb 70 (th_amber rag * 100 / 100) = false
  /\ alertType (determineAlert "Revenue" 70 rag 100) = None.
Proof.
  repeat split; vm_compute; reflexivity.
Qed.

(** ** Failure of the alert store *)





(** ** The anomaly detector *)

Section AnomalyDetector.

Lemma quarterLoop_reads {A} (item : Z -> Z -> Actual -> A) (kpiId : uuid)
      (currentYear year : Z) (quarters : list Z) :
  forall (historicalData : list A) (w : World),
    snd (quarterLoop item kpiId currentYear year quarters historicalData w) = w.
Proof.
  induction quarters as [| quarter rest IH]; intros historicalData w.
  - reflexivity.
  - cbn [quarterLoop]. unfold getActuals. run_unfold.
    destruct ((year =? currentYear)%Z && (quarter >? Math_ceil_div3 (getMonth (now w)))%Z);
      [reflexivity |].
    destruct (unavailable w OpGetActuals); [reflexivity |].
    apply IH.
Qed.

Lemma yearLoop_reads {A} (item : Z -> Z -> Actual -> A) (kpiId : uuid)
      (currentYear : Z) (w : World) :
  snd (yearLoop item kpiId currentYear w) = w.
Proof.
  unfold yearLoop, bind.
  destruct (quarterLoop item kpiId currentYear (currentYear - 1) [1; 2; 3; 4]%Z [] w)
    as [[h | e] w1] eqn:H1.
  - pose proof (quarterLoop_reads item kpiId currentYear (currentYear - 1)
                                  [1; 2; 3; 4]%Z [] w) as Hw.
    rewrite H1 in Hw. cbn in Hw. subst w1. apply quarterLoop_reads.
  - pose proof (quarterLoop_reads item kpiId currentYear (currentYear - 1)
                                  [1; 2; 3; 4]%Z [] w) as Hw.
    rewrite H1 in Hw. exact Hw.
Qed.

Lemma detectAnomalies_spec (kpiId : uuid) (w : World) :
  fst (detectAnomalies kpiId w) = Returned (fst (anomalyOutcome kpiId w))
  /\ alerts (db (snd (detectAnomalies kpiId w)))
     = alerts (db w) ++ snd (anomalyOutcome kpiId w).
Proof.
  unfold detectAnomalies, anomalyOutcome, anomalySeries.
  pose proof (yearLoop_reads (fun _ _ a => act_actualValue a) kpiId
                             (getFullYear (now w)) w) as Hw.
  run_unfold.
  destruct (yearLoop (fun _ _ a => act_actualValue a) kpiId (getFullYear (now w)) w)
    as [[h | e] w1].
  2: { cbn in Hw. subst w1. run_unfold. rewrite app_nil_r. split; reflexivity. }
  cbn in Hw. subst w1. cbn [fst].
  destruct (anomalyTest h) as [[[isAnomaly recent] avgPrevious] |];
    [| run_unfold; rewrite app_nil_r; split; reflexivity ].
  destruct isAnomaly; [| run_unfold; rewrite app_nil_r; split; reflexivity ].
  unfold getKPI, createAlert, storedAlert, anomalyInsert.
  run_step OpGetKPI; [ rewrite app_nil_r; split; reflexivity |].
  destruct (filter _ (kpiJoin (db w))) as [| row rows];
    [ run_unfold; rewrite app_nil_r; split; reflexivity |].
  run_step OpCreateAlert; [ rewrite app_nil_r |]; split; reflexivity.
Qed.

End AnomalyDetector.

Lemma slice_last_three {A} (pre : list A) (x y z : A) :
  slice (pre ++ [x; y; z]) (-1) None = [z]
  /\ slice (pre ++ [x; y; z]) (-3) (Some (-1)%Z) = [x; y].
Proof.
  unfold slice. rewrite length_app. cbn [List.length].
  change (-1 <? 0)%Z with true. change (-3 <? 0)%Z with true. cbv iota.
  rewrite !Z.max_l by lia.
  replace (Z.to_nat (Z.of_nat (List.length pre + 3)
                     - (Z.of_nat (List.length pre + 3) + -1)))%Z with 1%nat by lia.
  replace (Z.to_nat (Z.of_nat (List.length pre + 3) + -1))%Z
    with (List.length pre + 2)%nat by lia.
  replace (Z.to_nat (Z.of_nat (List.length pre + 3) + -1
                     - (Z.of_nat (List.length pre + 3) + -3)))%Z with 2%nat by lia.
  replace (Z.to_nat (Z.of_nat (List.length pre + 3) + -3))%Z
    with (List.length pre) by lia.
  rewrite !skipn_app, skipn_all, skipn_all2 by lia.
  replace (List.length pre + 2 - List.length pre)%nat with 2%nat by lia.
  rewrite Nat.sub_diag.
  split; reflexivity.
Qed.

Lemma anomalyTest_short (historicalData : list number) :
  (List.length historicalData < 3)%nat -> anomalyTest historicalData = None.
Proof.
  intros H. unfold anomalyTest.
  apply Nat.ltb_lt in H. rewrite H. reflexivity.
Qed.

Lemma anomalyTest_last_three (pre : list number) (x y z : number) :
  anomalyTest (pre ++ [x; y; z])
  = Some (PrimFloat.ltb (2 * stdDevOfTwo x y)%float
                        (Math_abs (z - meanOfTwo x y)%float),
          z, meanOfTwo x y).
Proof.
  unfold anomalyTest.
  destruct (slice_last_three pre x y z) as [-> ->].
  replace (List.length (pre ++ [x; y; z]) <? 3)%nat with false.
  - reflexivity.
  - symmetry. apply Nat.ltb_ge. rewrite length_app. cbn. lia.
Qed.

(** C4 (as the code has it). [detectAnomalies] never raises an error; on a
    series of fewer than 3 points it reports false and stores nothing; on a
    series of at least 3 points the test flags the last point exactly when
    its distance from the mean of the 2 points before it exceeds twice
    their population standard deviation, and that is the value returned
    when the KPI lookup and the alert store do not fail. The series
    [50, 52, 90] is flagged, and so is [50, 51, 52]: mean 50.5, standard
    deviation 0.5, distance 1.5 > 1. *)
Theorem C4_detectAnomalies_rule :
  (forall kpiId w, exists b, fst (detectAnomalies kpiId w) = Returned b)
  /\ (forall kpiId w historicalData,
         anomalySeries kpiId w = Returned historicalData ->
         (List.length historicalData < 3)%nat ->
         fst (detectAnomalies kpiId w) = Returned false
         /\ alerts (db (snd (detectAnomalies kpiId w))) = alerts (db w))
  /\ (forall pre x y z,
         anomalyTest (pre ++ [x; y; z])
         = Some (PrimFloat.ltb (2 * stdDevOfTwo x y)%float
                               (Math_abs (z - meanOfTwo x y)%float),
                 z, meanOfTwo x y))
  /\ (forall kpiId w pre x y z,
         anomalySeries kpiId w = Returned (pre ++ [x; y; z]) ->
         unavailable w OpGetKPI = false ->
         unavailable w OpCreateAlert = false ->
         fst (detectAnomalies kpiId w)
         = Returned (PrimFloat.ltb (2 * stdDevOfTwo x y)%float
                                   (Math_abs (z - meanOfTwo x y)%float)))
  /\ (anomalySeries "k1" (series_world [50; 52; 90]%float)
      = Returned [50; 52; 90]%float
      /\ fst (detectAnomalies "k1" (series_world [50; 52; 90]%float))
         = Returned true)
  /\ (anomalySeries "k1" (series_world [50; 51; 52]%float)
      = Returned [50; 51; 52]%float
      /\ meanOfTwo 50 51 = 50.5%float
      /\ stdDevOfTwo 50 51 = 0.5%float
      /\ fst (detectAnomalies "k1" (series_world [50; 51; 52]%float))
         = Returned true).
Proof.
  split; [| split; [| split; [| split; [| split]]]].
  - intros kpiId w. eexists. apply (detectAnomalies_spec kpiId w).
  - intros kpiId w h Hh Hlen.
    destruct (detectAnomalies_spec kpiId w) as [Hr Ha].
    rewrite Hr, Ha. unfold anomalyOutcome. rewrite Hh.
    rewrite (anomalyTest_short h Hlen). cbn [fst snd].
    rewrite app_nil_r. split; reflexivity.
  - apply anomalyTest_last_three.
  - intros kpiId w pre x y z Hh HK HA.
    destruct (detectAnomalies_spec kpiId w) as [Hr _].
    rewrite Hr. unfold anomalyOutcome. rewrite Hh, anomalyTest_last_three.
    destruct (PrimFloat.ltb _ _); [| reflexivity].
    unfold getKPI, select. rewrite HK, HA. cbn [fst].
    destruct (filter _ (kpiJoin (db w))); reflexivity.
  - split; vm_compute; reflexivity.
  - repeat split; vm_compute; reflexivity.
Qed.

(** C4, the claim as written fails on [50, 51, 52]: the series is flagged,
    and an anomaly alert is stored for it. *)
Lemma C4_series_50_51_52_is_flagged :
  anomalySeries "k1" (series_world [50; 51; 52]%float) = Returned [50; 51; 52]%float
  /\ fst (detectAnomalies "k1" (series_world [50; 51; 52]%float)) = Returned true
  /\ alertKinds (snd (detectAnomalies "k1" (series_world [50; 51; 52]%float)))
     = [(anomaly_detected, medium)].
Proof.
  repeat split; vm_compute; reflexivity.
Qed.

(** C7 (as the code has it). When [detectAnomalies] returns true for a KPI
    whose row the lookup finds, one alert of type anomaly_detected and
    severity medium, unread and unresolved, is added to the alert table;
    when the lookup finds no row, no alert is added. *)
Theorem C7_anomaly_alert_when_kpi_found
        (kpiId : uuid) (w : World) :
  fst (detectAnomalies kpiId w) = Returned true ->
  (forall kpi,
      fst (getKPI kpiId w) = Returned (Some kpi) ->
      exists a,
        alerts (db (snd (detectAnomalies kpiId w))) = alerts (db w) ++ [a]
        /\ al_type a = anomaly_detected /\ al_severity a = medium
        /\ al_kpiId a = Some kpiId
        /\ al_departmentId a = Some (kpi_departmentId (kwd_kpi kpi))
        /\ al_isRead a = false /\ al_isResolved a = false)
  /\ (fst (getKPI kpiId w) = Returned None ->
      alerts (db (snd (detectAnomalies kpiId w))) = alerts (db w)).
Proof.
  intros Htrue.
  destruct (detectAnomalies_spec kpiId w) as [Hr Ha].
  rewrite Hr in Htrue. rewrite Ha. clear Hr Ha.
  unfold anomalyOutcome in *.
  destruct (anomalySeries kpiId w) as [h | e]; [| discriminate].
  destruct (anomalyTest h) as [[[[|] recent] avgPrevious] |]; try discriminate.
  split.
  - intros kpi Hkpi. rewrite Hkpi in *.
    destruct (unavailable w OpCreateAlert); [discriminate |].
    eexists. cbn [snd]. repeat split.
  - intros Hnone. rewrite Hnone. cbn [snd]. apply app_nil_r.
Qed.

(** C7 in the world of the series 50, 52, 90 of the KPI "k1". *)
Lemma C7_witness :
  (forall kpi,
      fst (getKPI "k1" (series_world [50; 52; 90]%float)) = Returned (Some kpi) ->
      exists a,
        alerts (db (snd (detectAnomalies "k1" (series_world [50; 52; 90]%float))))
        = alerts (db (series_world [50; 52; 90]%float)) ++ [a]
        /\ al_type a = anomaly_detected /\ al_severity a = medium
        /\ al_kpiId a = Some "k1"
        /\ al_departmentId a = Some (kpi_departmentId (kwd_kpi kpi))
        /\ al_isRead a = false /\ al_isResolved a = false)
  /\ (fst (getKPI "k1" (series_world [50; 52; 90]%float)) = Returned None ->
      alerts (db (snd (detectAnomalies "k1" (series_world [50; 52; 90]%float))))
      = alerts (db (series_world [50; 52; 90]%float))).
Proof.
  apply (C7_anomaly_alert_when_kpi_found "k1" (series_world [50; 52; 90]%float)).
  vm_compute. reflexivity.
Defined.

(** C7, the claim as written fails for a KPI of the KPI table whose pillar
    has no row: the join of the lookup is empty, the call returns true, and
    the alert table stays empty. *)
Lemma C7_anomaly_without_alert :
  In churn (kpis (db orphan_world))
  /\ fst (getKPI "k2" orphan_world) = Returned None
  /\ anomalySeries "k2" orphan_world = Returned [50; 52; 90]%float
  /\ fst (detectAnomalies "k2" orphan_world) = Returned true
  /\ alerts (db (snd (detectAnomalies "k2" orphan_world))) = [].
Proof.
  split; [right; left; reflexivity |].
  repeat split; vm_compute; reflexivity.
Qed.

(** ** Updating an alert *)

Section AlertUpdate.

Lemma patchAlert_spec (user id : uuid) (body : AlertBody) (w : World) :
  let w' := snd (patchAlert user id body w) in
  alerts (db w') = patchedAlerts user id body w
  /\ unavailable w' = unavailable w.
Proof.
  unfold patchAlert, patchedAlerts, updateAlert. run_unfold.
  destruct (noValues (alertUpdates user (nowTime w) body)).
  - run_unfold. split; reflexivity.
  - cbn [orb]. run_step OpUpdateAlert; split; reflexivity.
Qed.

Lemma Forall2_map_right {A} (R : A -> A -> Prop) (f : A -> A) (l : list A) :
  (forall a, R a (f a)) -> Forall2 R l (map f l).
Proof.
  intros H. induction l as [| a l IH]; cbn; constructor; auto.
Qed.

(** Every row is related to its state after the request, for a relation
    that holds of an unchanged row and of a row the update is applied to. *)
Lemma patchAlert_rows (R : Alert -> Alert -> Prop) (user id : uuid)
      (body : AlertBody) (w : World) :
  (forall a, R a a) ->
  (forall a, String.eqb (al_id a) id = true ->
             R a (applyUpdate (alertUpdates user (nowTime w) body) a)) ->
  Forall2 R (alerts (db w)) (alerts (db (snd (patchAlert user id body w)))).
Proof.
  intros Hsame Hupd.
  destruct (patchAlert_spec user id body w) as [-> _]. unfold patchedAlerts.
  destruct (noValues _ || unavailable w OpUpdateAlert).
  - rewrite <- (map_id (alerts (db w))) at 2.
    apply Forall2_map_right. exact Hsame.
  - apply Forall2_map_right. intros a.
    destruct (String.eqb (al_id a) id) eqn:E; auto.
Qed.

Lemma patchAlert_resolution (user id : uuid) (w : World) (isRead : option bool)
      (isResolved : bool) :
  unavailable w OpUpdateAlert = false ->
  alerts (db (snd (patchAlert user id (mkAlertBody isRead (Some isResolved)) w)))
  = map (fun a => if String.eqb (al_id a) id
                  then withResolution user (nowTime w) isRead isResolved a
                  else a)
        (alerts (db w)).
Proof.
  intros Hup.
  destruct (patchAlert_spec user id (mkAlertBody isRead (Some isResolved)) w)
    as [-> _].
  unfold patchedAlerts. rewrite Hup.
  destruct isRead as [r |]; reflexivity.
Qed.

Lemma patchAlert_read (user id : uuid) (w : World) (isRead : bool) :
  unavailable w OpUpdateAlert = false ->
  alerts (db (snd (patchAlert user id (mkAlertBody (Some isRead) None) w)))
  = map (fun a => if String.eqb (al_id a) id then withRead isRead a else a)
        (alerts (db w)).
Proof.
  intros Hup.
  destruct (patchAlert_spec user id (mkAlertBody (Some isRead) None) w) as [-> _].
  unfold patchedAlerts. rewrite Hup. reflexivity.
Qed.

End AlertUpdate.

(** C10. In [PATCH /api/alerts/:id], a body that carries [isResolved], true
    or false, makes the stored alert of that id take the value, with
    [resolvedBy] the requesting user and [resolvedAt] the current time, the
    other alerts staying as they are; a body that carries [isRead] only
    leaves [resolvedBy], [resolvedAt] and [isResolved] of every alert as
    they were. *)
Theorem C10_alert_update_resolution_fields
        (user id : uuid) (w : World) (isRead : option bool) :
  (forall isResolved : bool,
      unavailable w OpUpdateAlert = false ->
      Forall2 (fun a a' =>
                 if String.eqb (al_id a) id
                 then a' = withResolution user (nowTime w) isRead isResolved a
                      /\ al_isResolved a' = isResolved
                      /\ al_resolvedBy a' = Some user
                      /\ al_resolvedAt a' = Some (nowTime w)
                 else a' = a)
              (alerts (db w))
              (alerts (db (snd (patchAlert user id
                                           (mkAlertBody isRead (Some isResolved)) w)))))
  /\ (forall read : bool,
         Forall2 (fun a a' =>
                    al_isResolved a' = al_isResolved a
                    /\ al_resolvedBy a' = al_resolvedBy a
                    /\ al_resolvedAt a' = al_resolvedAt a)
                 (alerts (db w))
                 (alerts (db (snd (patchAlert user id
                                              (mkAlertBody (Some read) None) w))))).
Proof.
  split.
  - intros isResolved Hup. rewrite (patchAlert_resolution user id w isRead isResolved Hup).
    apply Forall2_map_right. intros a.
    destruct (String.eqb (al_id a) id); repeat split; reflexivity.
  - intros read. apply patchAlert_rows.
    + intros a. repeat split; reflexivity.
    + intros a _. repeat split; reflexivity.
Qed.

(** ** The life of an alert *)

Lemma markRead_twice (id : uuid) (l : list Alert) :
  map (fun a => if String.eqb (al_id a) id then withRead true a else a)
      (map (fun a => if String.eqb (al_id a) id then withRead true a else a) l)
  = map (fun a => if String.eqb (al_id a) id then withRead true a else a) l.
Proof.
  rewrite map_map. apply map_ext. intros a.
  destruct (String.eqb (al_id a) id) eqn:E.
  - cbn [withRead al_id]. rewrite E. reflexivity.
  - rewrite E. reflexivity.
Qed.

(** C6 (as the code has it). The alerts the two engines create are stored
    unread and unresolved, with no resolver. Marking an alert read sets
    [isRead] and leaves its resolution as it was, and a repeated mark-read,
    at any later time by any user, changes nothing more. Marking it
    resolved sets [isResolved] and records the requesting user and the
    current time. A resolved alert stays resolved under every request whose
    body does not carry [isResolved] = false. *)
Theorem C6_alert_lifecycle :
  (forall kpiId actualValue w,
      exists l,
        alerts (db (snd (checkThresholds kpiId actualValue w))) = alerts (db w) ++ l
        /\ Forall unreadUnresolved l)
  /\ (forall kpiId w,
         exists l,
           alerts (db (snd (detectAnomalies kpiId w))) = alerts (db w) ++ l
           /\ Forall unreadUnresolved l)
  /\ (forall user id w,
         unavailable w OpUpdateAlert = false ->
         alerts (db (snd (patchAlert user id markRead w)))
         = map (fun a => if String.eqb (al_id a) id then withRead true a else a)
               (alerts (db w))
         /\ (forall user' today time,
                alerts (db (snd (patchAlert user' id markRead
                                   (with_clock today time
                                      (snd (patchAlert user id markRead w))))))
                = alerts (db (snd (patchAlert user id markRead w)))))
  /\ (forall user id w,
         unavailable w OpUpdateAlert = false ->
         alerts (db (snd (patchAlert user id markResolved w)))
         = map (fun a => if String.eqb (al_id a) id
                         then withResolution user (nowTime w) None true a
                         else a)
               (alerts (db w)))
  /\ (forall user id body w,
         body_isResolved body <> Some false ->
         Forall2 (fun a a' => al_isResolved a = true -> al_isResolved a' = true)
                 (alerts (db w))
                 (alerts (db (snd (patchAlert user id body w))))).
Proof.
  split; [| split; [| split; [| split]]].
  - intros kpiId actualValue w. exists (thresholdAlerts kpiId actualValue w).
    split; [apply (checkThresholds_spec kpiId actualValue w) |].
    unfold thresholdAlerts, thresholdInsert.
    destruct (fst (getKPI kpiId w)) as [[kpi |] | e]; try constructor.
    destruct (fst (getTargets _ _ _ w)) as [[| target rest] | e]; try constructor.
    destruct (alertType _); try constructor.
    destruct (unavailable w OpCreateAlert); repeat constructor.
  - intros kpiId w. exists (snd (anomalyOutcome kpiId w)).
    split; [apply (detectAnomalies_spec kpiId w) |].
    unfold anomalyOutcome.
    destruct (anomalySeries kpiId w) as [h | e]; try constructor.
    destruct (anomalyTest h) as [[[[|] recent] avgPrevious] |]; try constructor.
    destruct (fst (getKPI kpiId w)) as [[kpi |] | e]; try constructor.
    destruct (unavailable w OpCreateAlert); repeat constructor.
  - intros user id w Hup. unfold markRead.
    split; [apply patchAlert_read, Hup |].
    intros user' today time.
    rewrite patchAlert_read.
    + cbn [with_clock db]. rewrite (patchAlert_read user id w true Hup).
      apply markRead_twice.
    + cbn [with_clock unavailable].
      destruct (patchAlert_spec user id (mkAlertBody (Some true) None) w)
        as [_ ->]. exact Hup.
  - intros user id w Hup. apply patchAlert_resolution, Hup.
  - intros user id body w Hbody. apply patchAlert_rows.
    + intros a H. exact H.
    + intros a _ H. destruct body as [[r |] [[|] |]]; cbn in *; congruence.
Qed.

(** C6, the claim as written fails on its last part: the alert "row-0",
    resolved by "u1", is unresolved again after a request of "u2" whose
    body carries [isResolved] = false. *)
Lemma C6_resolved_alert_is_reopened :
  map resolutionOf (alerts (db resolved_world))
  = [("row-0", false, true, Some "u1", Some 1715760000000%Z)]
  /\ map resolutionOf
         (alerts (db (snd (patchAlert "u2" "row-0" (mkAlertBody None (Some false))
                                      resolved_world))))
     = [("row-0", false, false, Some "u2", Some 1715760000000%Z)].
Proof.
  split; vm_compute; reflexivity.
Qed.

(** ** The forecast engine *)

(** C5 (as the code has it). On a history whose values are the exact
    linear series [10, 20, 30, 40] the fitted slope and intercept are 10
    and 10, the four forecast points are 50, 60, 70 and 80 (period 5, at
    index 4, is 50; 60 is period 6), their confidences 1, 0.9, 0.8 and 0.7,
    and the trend is increasing; the confidence of a point [i] steps ahead
    is 1 - 0.1 * i, floored at 0.6 (reached from step 4 on) and rounded to
    2 decimals. *)
Theorem C5_forecast_linear_series
        (kpiId : uuid) (w : World) (historicalData : list HistoricalDatum) :
  forecastHistory kpiId w = Returned historicalData ->
  map hd_value historicalData = [10; 20; 30; 40]%float ->
  regression (map hd_value historicalData) = (10, 10)%float
  /\ (exists r,
         fst (generateForecast kpiId w) = Returned r
         /\ map fp_predictedValue (fr_forecast r) = [50; 60; 70; 80]%float
         /\ map fp_confidence (fr_forecast r) = [1; 0.9; 0.8; 0.7]%float
         /\ fr_trend r = increasing)
  /\ map forecastConfidence [0; 1; 2; 3; 4; 5; 6; 10]%nat
     = [1; 0.9; 0.8; 0.7; 0.6; 0.6; 0.6; 0.6]%float
  /\ (forall i, forecastConfidence i
                = (Math_round (Math_max 0.6 (1 - of_nat i * 0.1) * 100) / 100)%float).
Proof.
  intros Hh Hv.
  assert (Hlen : List.length historicalData = 4%nat)
    by (rewrite <- (length_map hd_value), Hv; reflexivity).
  split; [rewrite Hv; vm_compute; reflexivity |].
  split; [| split; [vm_compute; reflexivity | reflexivity]].
  unfold forecastHistory in Hh. unfold generateForecast.
  pose proof (yearLoop_reads
                (fun year quarter a =>
                   mkHistoricalDatum (periodLabel quarter year) (act_actualValue a)
                                     (mkDate year ((quarter - 1) * 3) 1))
                kpiId (getFullYear (now w)) w) as Hw.
  run_unfold.
  destruct (yearLoop _ kpiId (getFullYear (now w)) w) as [o w1].
  cbn [fst snd] in Hh, Hw. subst o w1.
  rewrite Hlen, Hv. cbn [Nat.ltb Nat.leb].
  replace (regression [10; 20; 30; 40]%float) with (10, 10)%float
    by (vm_compute; reflexivity).
  cbn [mapM]. unfold forecastPoint. run_unfold.
  eexists. split; [reflexivity |].
  cbn [fr_forecast fr_trend map fp_predictedValue fp_confidence].
  repeat split; vm_compute; reflexivity.
Qed.

(** C5 in the world whose quarters of 2023 hold 10, 20, 30, 40. *)
Lemma C5_witness :
  regression (map hd_value
                  [mkHistoricalDatum "Q1 2023" 10 (mkDate 2023 0 1);
                   mkHistoricalDatum "Q2 2023" 20 (mkDate 2023 3 1);
                   mkHistoricalDatum "Q3 2023" 30 (mkDate 2023 6 1);
                   mkHistoricalDatum "Q4 2023" 40 (mkDate 2023 9 1)])
  = (10, 10)%float
  /\ (exists r,
         fst (generateForecast "k1" (series_world [10; 20; 30; 40]%float)) = Returned r
         /\ map fp_predictedValue (fr_forecast r) = [50; 60; 70; 80]%float
         /\ map fp_confidence (fr_forecast r) = [1; 0.9; 0.8; 0.7]%float
         /\ fr_trend r = increasing)
  /\ map forecastConfidence [0; 1; 2; 3; 4; 5; 6; 10]%nat
     = [1; 0.9; 0.8; 0.7; 0.6; 0.6; 0.6; 0.6]%float
  /\ (forall i, forecastConfidence i
                = (Math_round (Math_max 0.6 (1 - of_nat i * 0.1) * 100) / 100)%float).
Proof.
  apply (C5_forecast_linear_series "k1" (series_world [10; 20; 30; 40]%float));
    vm_compute; reflexivity.
Defined.

(** C5, the claim as written fails on the value of period 5: the first
    forecast point, the fifth period of the series, is 50, and 60 is the
    second. *)
Lemma C5_period_5_is_50 :
  fst (generateForecast "k1" (series_world [10; 20; 30; 40]%float))
  = Returned
      (mkForecastResult "k1"
         [mkForecastPoint "Q3 2024" 50 1; mkForecastPoint "Q4 2024" 60 0.9;
          mkForecastPoint "Q1 2025" 70 0.8; mkForecastPoint "Q2 2025" 80 0.7]
         increasing
         "Performance is trending upward. Continue current strategies and consider scaling successful initiatives.")
  /\ Math_abs (50 - 60)%float = 10%float.
Proof.
  split; vm_compute; reflexivity.
Qed.

(** ** The scenario engine *)

(** C3, where the engine departs from the claim. With a current-period
    actual of 100 and one scenario of input 120, the change is 20 percent,
    the impact positive and the confidence 0.8. The projection multiplies
    the change by 0.1 as the percentage it is, 20, so the engine returns
    120 * (1 + 20 * 0.1) = 360; with the change as the fraction 20 / 100,
    the way the confidence of the same callback divides it, the projection
    is the 122.4 of the claim. *)
Theorem C3_scenario_current_100_input_120
        (kpiId : uuid) (w : World) (kpi : KPIWithDetails) (a : Actual)
        (rest : list Actual) (name : option string) :
  fst (getKPI kpiId w) = Returned (Some kpi) ->
  fst (getActuals kpiId (getFullYear (now w)) (Some (currentQuarterOf w)) w)
  = Returned (a :: rest) ->
  act_actualValue a = 100%float ->
  changePercentOf 100 120 = 20%float
  /\ impactOf 20 = positive
  /\ (120 * (1 + 20 * 0.1))%float = 360%float
  /\ (120 * (1 + 20 / 100 * 0.1))%float = 122.4%float
  /\ PrimFloat.eqb 360 122.4 = false
  /\ fst (runScenarioTest kpiId [mkScenario name (Some 120%float)] w)
     = Returned
         (mkScenarioTestResult kpiId
            [mkScenarioOutcome (string_or name "Scenario 1") 120 360 positive 0.8]
            [String.append "Consider implementing strategies similar to: "
                           (string_or name "Scenario 1")]).
Proof.
  intros Hkpi Hact Hval.
  split; [vm_compute; reflexivity |].
  split; [vm_compute; reflexivity |].
  split; [vm_compute; reflexivity |].
  split; [vm_compute; reflexivity |].
  split; [vm_compute; reflexivity |].
  revert Hkpi Hact.
  unfold runScenarioTest, getKPI, getActuals, currentQuarterOf.
  run_step OpGetKPI; [discriminate |].
  destruct (filter _ (kpiJoin (db w))) as [| row rows]; [discriminate |].
  intros _.
  run_step OpGetActuals; [discriminate |].
  destruct (flat_map _ (actuals (db w))) as [| a0 rest0]; [discriminate |].
  intros Hact. injection Hact as -> ->.
  rewrite Hval. cbn [fst map_indexed].
  unfold recommendationsOf.
  replace (projectScenario 100 (mkScenario name (Some 120%float)) 0)
    with (mkScenarioOutcome (string_or name "Scenario 1") 120 360 positive 0.8).
  - cbn [filter isImpact so_impact map so_name join String.concat]. reflexivity.
  - unfold projectScenario. cbn [sc_name sc_value Nat.add string_of_nat].
    f_equal; vm_compute; reflexivity.
Qed.

(** C3 in the world whose current quarter holds the actual 100. *)
Lemma C3_witness :
  changePercentOf 100 120 = 20%float
  /\ impactOf 20 = positive
  /\ (120 * (1 + 20 * 0.1))%float = 360%float
  /\ (120 * (1 + 20 / 100 * 0.1))%float = 122.4%float
  /\ PrimFloat.eqb 360 122.4 = false
  /\ fst (runScenarioTest "k1" [mkScenario (Some "Expand") (Some 120%float)]
                          scenario_world)
     = Returned
         (mkScenarioTestResult "k1"
            [mkScenarioOutcome (string_or (Some "Expand") "Scenario 1")
                               120 360 positive 0.8]
            [String.append "Consider implementing strategies similar to: "
                           (string_or (Some "Expand") "Scenario 1")]).
Proof.
  eapply (C3_scenario_current_100_input_120 "k1" scenario_world);
    vm_compute; reflexivity.
Defined.

(** The same run evaluated, and its mirror image: in the world whose
    current quarter holds 100, the scenario of input 120 projects to 360,
    and the scenario of input 80, a fifth below the current value, projects
    to 80 * (1 - 20 * 0.1) = -80, below zero. *)
Lemma runScenarioTest_percent_as_factor :
  fst (runScenarioTest "k1" [mkScenario (Some "Expand") (Some 120%float)]
                       scenario_world)
  = Returned (mkScenarioTestResult "k1"
                [mkScenarioOutcome "Expand" 120 360 positive 0.8]
                ["Consider implementing strategies similar to: Expand"])
  /\ fst (runScenarioTest "k1" [mkScenario (Some "Shrink") (Some 80%float)]
                          scenario_world)
     = Returned (mkScenarioTestResult "k1"
                   [mkScenarioOutcome "Shrink" 80 (-80) negative 0.8]
                   ["Avoid strategies that could lead to: Shrink"])
  /\ PrimFloat.eqb (120 * (1 + 20 * 0.1)) 122.4 = false.
Proof.
  repeat split; vm_compute; reflexivity.
Qed.

(** ** The aggregation layer *)

Lemma departmentPerformanceOf_returns (dept : Department) (w : World) :
  exists p w',
    departmentPerformanceOf dept w = (Returned p, w')
    /\ dp_id p = dept_id dept
    /\ dp_score p = (Math_floor (randoms w (randomIndex w) * 40) + 60)%float
    /\ db w' = db w.
Proof.
  unfold departmentPerformanceOf, Math_random. run_unfold.
  destruct (PrimFloat.ltb 0.7 (randoms w (S (randomIndex w))));
    do 2 eexists; repeat split.
Qed.

Lemma mapM_departmentPerformanceOf (depts : list Department) :
  forall w, exists ps w',
      mapM departmentPerformanceOf depts w = (Returned ps, w')
      /\ map dp_id ps = map dept_id depts
      /\ db w' = db w.
Proof.
  induction depts as [| dept rest IH]; intros w.
  - exists [], w. repeat split.
  - destruct (departmentPerformanceOf_returns dept w) as (p & w1 & Hp & Hid & _ & Hdb).
    destruct (IH w1) as (ps & w2 & Hps & Hids & Hdb2).
    exists (p :: ps), w2. cbn [mapM]. unfold bind at 1. rewrite Hp.
    unfold bind at 1. rewrite Hps. unfold ret. cbn [map].
    rewrite Hid, Hids, Hdb2, Hdb. repeat split.
Qed.

(** C2, where the code departs from the claim: a call of
    [getDepartmentPerformance] leaves the database as it is, and the score
    of the first active department is 60 plus the floor of 40 times the
    next result of [Math.random()], whatever is stored; so two calls for the
    same year and quarter, the second in the world the first leaves, return
    different scores, statuses, KPI counts and trends. *)
Theorem C2_getDepartmentPerformance_varies :
  (forall year quarter w dept rest,
      fst (getDepartments w) = Returned (dept :: rest) ->
      exists p ps,
        fst (getDepartmentPerformance year quarter w) = Returned (p :: ps)
        /\ map dp_id (p :: ps) = map dept_id (dept :: rest)
        /\ dp_score p = (Math_floor (randoms w (randomIndex w) * 40) + 60)%float
        /\ db (snd (getDepartmentPerformance year quarter w)) = db w)
  /\ db (snd (getDepartmentPerformance 2024 2 base_world)) = db base_world
  /\ scoresOf (fst (getDepartmentPerformance 2024 2 base_world))
     = [("d1", 80, green, 17, -5)%float]
  /\ scoresOf (fst (getDepartmentPerformance 2024 2
                      (snd (getDepartmentPerformance 2024 2 base_world))))
     = [("d1", 70, amber, 21, 5)%float].
Proof.
  split; [| repeat split; vm_compute; reflexivity].
  intros year quarter w dept rest.
  unfold getDepartmentPerformance, getDepartments.
  run_step OpGetDepartments; [discriminate |].
  destruct (filter dept_isActive (departments (db w))) as [| d ds]; [discriminate |].
  intros H. injection H as -> ->.
  cbn [mapM]. unfold bind at 1 3.
  destruct (departmentPerformanceOf_returns dept w) as (p & w1 & Hp & Hid & Hscore & Hdb).
  destruct (mapM_departmentPerformanceOf rest w1) as (ps & w2 & Hps & Hids & Hdb2).
  rewrite Hp. unfold bind at 1 2. rewrite Hps. unfold ret. cbn [fst snd map].
  exists p, ps. rewrite Hid, Hids, Hdb2, Hdb. repeat split. exact Hscore.
Qed.

(** * Further properties of the code *)

(** ** [checkThresholds]: nothing to evaluate against *)

Lemma filter_none {A} (f : A -> bool) (l : list A) :
  (forall x, In x l -> f x = false) -> filter f l = [].
Proof.
  induction l as [| x l IH]; intros H; cbn.
  - reflexivity.
  - rewrite (H x (or_introl eq_refl)). apply IH.
    intros y Hy. apply H. right. exact Hy.
Qed.

Lemma checkThresholds_silent (kpiId : uuid) (actualValue : number) (w : World) :
  unavailable w OpGetKPI = false ->
  fst (getKPI kpiId w) = Returned None
  \/ fst (getTargets kpiId (getFullYear (now w)) (Some (currentQuarterOf w)) w)
     = Returned [] ->
  checkThresholds kpiId actualValue w = (Returned tt, w).
Proof.
  intros HK.
  unfold checkThresholds, getKPI, getTargets, currentQuarterOf.
  run_unfold. rewrite HK. run_unfold.
  destruct (filter _ (kpiJoin (db w))) as [| row rows]; [reflexivity |].
  intros [H | H]; [discriminate |]. revert H.
  run_step OpGetTargets; [discriminate |].
  destruct (filter _ (targets (db w))) as [| target rest]; [reflexivity |].
  discriminate.
Qed.

(** X1. When the KPI lookup answers and finds no row, or finds the KPI but
    no target of the current year and quarter, [checkThresholds] returns
    without a trace: no alert, no console output, the world as it was. *)
Theorem X1_checkThresholds_silent_without_kpi_or_target
        (kpiId : uuid) (actualValue : number) (w : World) :
  unavailable w OpGetKPI = false ->
  fst (getKPI kpiId w) = Returned None
  \/ fst (getTargets kpiId (getFullYear (now w)) (Some (currentQuarterOf w)) w)
     = Returned [] ->
  checkThresholds kpiId actualValue w = (Returned tt, w).
Proof.
  exact (checkThresholds_silent kpiId actualValue w).
Qed.

(** X1 in the base world, for a KPI id the table does not have. *)
Lemma X1_witness : checkThresholds "k9" 30 base_world = (Returned tt, base_world).
Proof.
  apply (X1_checkThresholds_silent_without_kpi_or_target "k9" 30 base_world).
  - reflexivity.
  - left. reflexivity.
Defined.

(** X2. A yearly target, whose quarter column is null, is never the target
    of a threshold check: for a KPI all of whose targets are yearly,
    [checkThresholds] stores no alert and logs nothing, however low the
    actual value. *)
Theorem X2_checkThresholds_ignores_yearly_targets
        (kpiId : uuid) (actualValue : number) (w : World) :
  unavailable w OpGetKPI = false ->
  unavailable w OpGetTargets = false ->
  (forall t, In t (targets (db w)) -> tgt_kpiId t = kpiId -> tgt_quarter t = None) ->
  checkThresholds kpiId actualValue w = (Returned tt, w).
Proof.
  intros HK HT Hyearly.
  apply checkThresholds_silent; [exact HK |].
  right. unfold getTargets, select. rewrite HT. cbn [fst]. f_equal.
  apply filter_none. intros t Hin.
  destruct (String.eqb (tgt_kpiId t) kpiId) eqn:E; [| reflexivity].
  apply String.eqb_eq in E. unfold quarter_matches. rewrite (Hyearly t Hin E).
  apply andb_false_r.
Qed.

(** X2 in the world of the yearly target, at actual 0. *)
Lemma X2_witness : checkThresholds "k1" 0 yearly_world = (Returned tt, yearly_world).
Proof.
  apply (X2_checkThresholds_ignores_yearly_targets "k1" 0 yearly_world).
  - reflexivity.
  - reflexivity.
  - intros t [<- | []] _. reflexivity.
Defined.

(** ** Not-a-number, and the sign of a forecast *)

Lemma Prim2SF_nan (x : number) : PrimFloat.is_nan x = true -> Prim2SF x = S754_nan.
Proof.
  intros H. unfold Prim2SF. rewrite H. reflexivity.
Qed.

Lemma ltb_nan_l (x y : number) :
  PrimFloat.is_nan x = true -> PrimFloat.ltb x y = false.
Proof.
  intros H. rewrite FloatAxioms.ltb_spec, (Prim2SF_nan x H). reflexivity.
Qed.

Lemma ltb_nan_r (x y : number) :
  PrimFloat.is_nan y = true -> PrimFloat.ltb x y = false.
Proof.
  intros H. rewrite FloatAxioms.ltb_spec, (Prim2SF_nan y H).
  unfold SFltb. destruct (Prim2SF x); reflexivity.
Qed.

(** X3. An actual value that is not a number (the decimal column can hold
    NaN) matches none of the three tests: [checkThresholds] adds no alert
    for it, whatever the target and thresholds. *)
Theorem X3_checkThresholds_NaN_raises_no_alert
        (kpiId : uuid) (actualValue : number) (w : World) :
  PrimFloat.is_nan actualValue = true ->
  (forall name threshold targetValue,
      alertType (determineAlert name actualValue threshold targetValue) = None)
  /\ alerts (db (snd (checkThresholds kpiId actualValue w))) = alerts (db w).
Proof.
  intros Hnan.
  assert (Hnone : forall name threshold targetValue,
             alertType (determineAlert name actualValue threshold targetValue) = None).
  { intros name threshold targetValue. unfold determineAlert.
    rewrite !(ltb_nan_l actualValue _ Hnan), (ltb_nan_r _ actualValue Hnan).
    reflexivity. }
  split; [exact Hnone |].
  destruct (checkThresholds_spec kpiId actualValue w) as (_ & _ & _ & -> & _).
  unfold thresholdAlerts, thresholdInsert.
  destruct (fst (getKPI kpiId w)) as [[kpi |] | e]; try apply app_nil_r.
  destruct (fst (getTargets _ _ _ w)) as [[| target rest] | e]; try apply app_nil_r.
  rewrite Hnone. apply app_nil_r.
Qed.

(** X3 in the base world, where any number below 40 raises an alert. *)
Lemma X3_witness :
  (forall name threshold targetValue,
      alertType (determineAlert name PrimFloat.nan threshold targetValue) = None)
  /\ alerts (db (snd (checkThresholds "k1" PrimFloat.nan base_world)))
     = alerts (db base_world).
Proof.
  apply (X3_checkThresholds_NaN_raises_no_alert "k1" PrimFloat.nan base_world).
  reflexivity.
Defined.

(** ** Failing queries in the detector and the forecast *)

(** X4. When the query for actuals is rejected, [detectAnomalies] reports
    false: the error goes to the console, no alert is stored and nothing is
    thrown to the caller. *)
Theorem X4_detectAnomalies_query_failure (kpiId : uuid) (w : World) :
  unavailable w OpGetActuals = true ->
  detectAnomalies kpiId w
  = (Returned false,
     with_console (console w ++ [ConsoleError "Anomaly detection error:"
                                              (MkError "database unavailable")]) w).
Proof.
  intros Hdown.
  unfold detectAnomalies, yearLoop. cbn [quarterLoop]. unfold getActuals.
  run_unfold.
  replace (getFullYear (now w) - 1 =? getFullYear (now w))%Z with false
    by (symmetry; apply Z.eqb_neq; lia).
  cbn [andb]. rewrite Hdown. reflexivity.
Qed.

(** X4 in the world of an anomalous series whose actuals cannot be read. *)
Lemma X4_witness :
  detectAnomalies "k1" (world_of (series_db [50; 52; 90]%float) actuals_down may2024)
  = (Returned false,
     with_console
       (console (world_of (series_db [50; 52; 90]%float) actuals_down may2024)
          ++ [ConsoleError "Anomaly detection error:" (MkError "database unavailable")])
       (world_of (series_db [50; 52; 90]%float) actuals_down may2024)).
Proof.
  apply (X4_detectAnomalies_query_failure "k1").
  reflexivity.
Defined.

Lemma generateForecast_spec (kpiId : uuid) (w : World) :
  generateForecast kpiId w
  = match forecastOutcome kpiId w with
    | Returned r => (Returned r, w)
    | Thrown cause =>
        (Thrown (MkError "Failed to generate forecast"),
         with_console (console w ++ [ConsoleError "Forecast generation error:" cause]) w)
    end.
Proof.
  unfold generateForecast, forecastOutcome, forecastHistory.
  pose proof (yearLoop_reads
                (fun year quarter a =>
                   mkHistoricalDatum (periodLabel quarter year) (act_actualValue a)
                                     (mkDate year ((quarter - 1) * 3) 1))
                kpiId (getFullYear (now w)) w) as Hw.
  run_unfold.
  destruct (yearLoop _ kpiId (getFullYear (now w)) w) as [[h | e] w1];
    cbn [fst snd] in Hw |- *; subst w1; [| reflexivity].
  destruct (List.length h <? 2)%nat; [reflexivity |].
  destruct (regression (map hd_value h)) as [slope intercept].
  cbn [mapM]. unfold forecastPoint. run_unfold. reflexivity.
Qed.

(** X5. Whatever makes [generateForecast] fail, a rejected query or a
    history of fewer than 2 points, the caller sees the one error "Failed to
    generate forecast": the cause goes to the console, once, and the
    database is left as it was. A history of fewer than 2 points does make
    it fail. *)
Theorem X5_generateForecast_failure_is_wrapped (kpiId : uuid) (w : World) :
  (forall e w',
      generateForecast kpiId w = (Thrown e, w') ->
      e = MkError "Failed to generate forecast"
      /\ db w' = db w
      /\ exists cause,
          console w' = console w ++ [ConsoleError "Forecast generation error:" cause])
  /\ (forall historicalData,
         forecastHistory kpiId w = Returned historicalData ->
         (List.length historicalData < 2)%nat ->
         generateForecast kpiId w
         = (Thrown (MkError "Failed to generate forecast"),
            with_console
              (console w
                 ++ [ConsoleError "Forecast generation error:"
                       (MkError "Insufficient historical data for forecasting")])
              w)).
Proof.
  split.
  - intros e w'. rewrite generateForecast_spec.
    destruct (forecastOutcome kpiId w) as [r | cause]; [discriminate |].
    intros H. injection H as <- <-. repeat split. exists cause. reflexivity.
  - intros h Hh Hlen. rewrite generateForecast_spec. unfold forecastOutcome.
    rewrite Hh. apply Nat.ltb_lt in Hlen. rewrite Hlen. reflexivity.
Qed.

(** X5 in the world of a single submission. *)
Lemma X5_witness :
  generateForecast "k1" (series_world [10]%float)
  = (Thrown (MkError "Failed to generate forecast"),
     with_console
       (console (series_world [10]%float)
          ++ [ConsoleError "Forecast generation error:"
                (MkError "Insufficient historical data for forecasting")])
       (series_world [10]%float)).
Proof.
  apply (proj2 (X5_generateForecast_failure_is_wrapped "k1" (series_world [10]%float))
               [mkHistoricalDatum "Q1 2023" 10 (mkDate 2023 0 1)]).
  - reflexivity.
  - cbn. lia.
Defined.

Section NumberSign.

Lemma SFltb_asym (x y : spec_float) : SFltb x y = true -> SFltb y x = false.
Proof.
  unfold SFltb.
  destruct x as [sx|sx| |sx mx ex], y as [sy|sy| |sy my ey];
    simpl; try discriminate; try reflexivity;
    repeat match goal with s : bool |- _ => destruct s end;
    simpl; try discriminate; try reflexivity;
    rewrite (Z.compare_antisym ex ey);
    change (Pos.compare_cont Eq my mx) with (Pos.compare my mx);
    change (Pos.compare_cont Eq mx my) with (Pos.compare mx my);
    rewrite (Pos.compare_antisym mx my);
    destruct (Z.compare ex ey); simpl; try discriminate; try reflexivity;
    destruct (Pos.compare mx my); simpl; try discriminate; reflexivity.
Qed.

Lemma ltb_asym (x y : number) :
  PrimFloat.ltb x y = true -> PrimFloat.ltb y x = false.
Proof.
  rewrite !FloatAxioms.ltb_spec. apply SFltb_asym.
Qed.

(** [Math.max(0, x)] is never below zero: it is NaN for NaN. *)
Lemma Math_max_zero_not_negative (x : number) :
  PrimFloat.ltb (Math_max 0 x) 0 = false.
Proof.
  unfold Math_max.
  destruct (PrimFloat.is_nan 0 || PrimFloat.is_nan x); [reflexivity |].
  destruct (PrimFloat.ltb 0 x) eqn:H; [apply ltb_asym, H |].
  destruct (PrimFloat.ltb x 0); reflexivity.
Qed.

End NumberSign.

(** X6. A forecast that [generateForecast] returns has exactly four points,
    with confidences 1, 0.9, 0.8 and 0.7 whatever the history, and no
    predicted value below zero; it is for the KPI asked, the world is left
    as it was, and the recommendation is the sentence of the trend. *)
Theorem X6_generateForecast_shape
        (kpiId : uuid) (w w' : World) (r : ForecastResult) :
  generateForecast kpiId w = (Returned r, w') ->
  w' = w
  /\ fr_kpiId r = kpiId
  /\ List.length (fr_forecast r) = 4%nat
  /\ map fp_confidence (fr_forecast r) = [1; 0.9; 0.8; 0.7]%float
  /\ Forall (fun p => PrimFloat.ltb (fp_predictedValue p) 0 = false) (fr_forecast r)
  /\ fr_recommendation r = recommendationOf (fr_trend r).
Proof.
  rewrite generateForecast_spec. unfold forecastOutcome.
  destruct (forecastHistory kpiId w) as [h | e]; [| discriminate].
  destruct (List.length h <? 2)%nat; [discriminate |].
  destruct (regression (map hd_value h)) as [slope intercept].
  intros H. injection H as <- <-.
  cbn [fr_kpiId fr_forecast fr_trend fr_recommendation map List.length
       forecastPointAt fp_confidence fp_predictedValue].
  split; [reflexivity |]. split; [reflexivity |]. split; [reflexivity |].
  split; [vm_compute; reflexivity |].
  split; [| reflexivity].
  repeat constructor; apply Math_max_zero_not_negative.
Qed.

(** X6 in the world of the falling series. *)
Lemma X6_witness :
  series_world [40; 30; 20; 10]%float = series_world [40; 30; 20; 10]%float
  /\ fr_kpiId falling_forecast = "k1"
  /\ List.length (fr_forecast falling_forecast) = 4%nat
  /\ map fp_confidence (fr_forecast falling_forecast) = [1; 0.9; 0.8; 0.7]%float
  /\ Forall (fun p => PrimFloat.ltb (fp_predictedValue p) 0 = false)
            (fr_forecast falling_forecast)
  /\ fr_recommendation falling_forecast = recommendationOf (fr_trend falling_forecast).
Proof.
  apply (X6_generateForecast_shape "k1" (series_world [40; 30; 20; 10]%float)).
  vm_compute. reflexivity.
Defined.

(** ** The history the detector and the forecast read *)

Lemma getActuals_In (kpiId : uuid) (year : Z) (quarter : option Z) (w : World)
      (rows : list Actual) :
  fst (getActuals kpiId year quarter w) = Returned rows ->
  forall a, In a rows ->
    In a (actuals (db w)) /\ act_kpiId a = kpiId
    /\ exists t, In t (targets (db w)) /\ tgt_id t = act_targetId a
                 /\ tgt_year t = year /\ quarter_matches quarter t = true.
Proof.
  unfold getActuals, select.
  destruct (unavailable w OpGetActuals); [discriminate |].
  cbn [fst]. intros H a Hin. injection H as <-.
  apply in_flat_map in Hin. destruct Hin as (a0 & Ha0 & Hin).
  apply in_map_iff in Hin. destruct Hin as (t & <- & Ht).
  apply filter_In in Ht. destruct Ht as (Ht & Hcond).
  apply andb_true_iff in Hcond. destruct Hcond as (Hcond & Hq).
  apply andb_true_iff in Hcond. destruct Hcond as (Hcond & Hy).
  apply andb_true_iff in Hcond. destruct Hcond as (Hid & Hk).
  apply String.eqb_eq in Hid, Hk. apply Z.eqb_eq in Hy.
  repeat split; try assumption.
  exists t. repeat split; auto.
Qed.

Lemma quarterLoop_points (kpiId : uuid) (currentYear year : Z) (w : World)
      (P : number -> Prop) (quarters : list Z) :
  (forall value, pointOf kpiId year w value -> P value) ->
  forall historicalData h,
    Forall P historicalData ->
    fst (quarterLoop (fun _ _ a => act_actualValue a) kpiId currentYear year
                     quarters historicalData w) = Returned h ->
    Forall P h
    /\ (List.length h <= List.length historicalData + List.length quarters)%nat.
Proof.
  intros HP. induction quarters as [| quarter rest IH]; intros acc h Hacc.
  - cbn. intros H. injection H as <-. split; [exact Hacc | lia].
  - cbn [quarterLoop]. run_unfold.
    destruct ((year =? currentYear)%Z && (quarter >? Math_ceil_div3 (getMonth (now w)))%Z).
    + cbn. intros H. injection H as <-. split; [exact Hacc | lia].
    + destruct (getActuals kpiId year (Some quarter) w) as [[rows | e] w1] eqn:Hrows;
        [| discriminate].
      pose proof (getActuals_In kpiId year (Some quarter) w rows) as Hin.
      rewrite Hrows in Hin. specialize (Hin eq_refl).
      assert (w1 = w) as ->.
      { unfold getActuals, select in Hrows.
        destruct (unavailable w OpGetActuals); injection Hrows as _ <-; reflexivity. }
      intros H. apply IH in H.
      * destruct H as [Hh Hlen]. split; [exact Hh |].
        destruct rows; cbn [List.length] in *;
          [| rewrite length_app in Hlen; cbn [List.length] in Hlen]; lia.
      * destruct rows as [| a rows']; [exact Hacc |].
        apply Forall_app. split; [exact Hacc |]. constructor; [| constructor].
        destruct (Hin a (or_introl eq_refl)) as (Ha & Hk & t & Ht & Hid & Hy & _).
        apply HP. exists a, t. repeat split; auto.
Qed.

(** X7. The series [detectAnomalies] gathers has at most 8 points, and each
    is the value of a stored actual of that KPI whose target row is of last
    year or of this year; in January, when [getMonth()] is 0, no quarter of
    the current year is read and the points are at most 4, all of last
    year. *)
Theorem X7_history_points (kpiId : uuid) (w : World) (historicalData : list number) :
  anomalySeries kpiId w = Returned historicalData ->
  (List.length historicalData <= 8)%nat
  /\ Forall (fun value => pointOf kpiId (getFullYear (now w) - 1) w value
                          \/ pointOf kpiId (getFullYear (now w)) w value)
            historicalData
  /\ (getMonth (now w) = 0%Z ->
      (List.length historicalData <= 4)%nat
      /\ Forall (pointOf kpiId (getFullYear (now w) - 1) w) historicalData).
Proof.
  unfold anomalySeries, yearLoop, bind.
  set (cy := getFullYear (now w)).
  destruct (quarterLoop _ kpiId cy (cy - 1) [1; 2; 3; 4]%Z [] w) as [[h1 | e] w1] eqn:H1;
    [| discriminate].
  pose proof (quarterLoop_reads (fun _ _ a => act_actualValue a) kpiId cy (cy - 1)
                                [1; 2; 3; 4]%Z [] w) as Hw.
  rewrite H1 in Hw. cbn [snd] in Hw. subst w1.
  pose proof (f_equal fst H1) as H1'. cbn [fst] in H1'.
  intros H2.
  destruct (quarterLoop_points kpiId cy (cy - 1) w
              (pointOf kpiId (cy - 1) w) [1; 2; 3; 4]%Z (fun v Hv => Hv)
              [] h1 (Forall_nil _) H1') as [Hlast Hlen1].
  assert (Heither : Forall (fun value => pointOf kpiId (cy - 1) w value
                                         \/ pointOf kpiId cy w value) h1)
    by (apply (Forall_impl _ (fun v Hv => or_introl Hv) Hlast)).
  destruct (quarterLoop_points kpiId cy cy w
              (fun value => pointOf kpiId (cy - 1) w value \/ pointOf kpiId cy w value)
              [1; 2; 3; 4]%Z (fun v Hv => or_intror Hv)
              h1 historicalData Heither H2) as [Hall Hlen2].
  cbn [List.length] in Hlen1, Hlen2.
  split; [lia |]. split; [exact Hall |].
  intros Hjan. revert H2. cbn [quarterLoop]. run_unfold.
  rewrite Z.eqb_refl, Hjan. cbn. intros H. injection H as <-.
  split; [lia | exact Hlast].
Qed.

(** X7 in the world of the series 50, 52, 90, in May. *)
Lemma X7_witness :
  (List.length [50; 52; 90]%float <= 8)%nat
  /\ Forall (fun value =>
               pointOf "k1" (getFullYear (now (series_world [50; 52; 90]%float)) - 1)
                       (series_world [50; 52; 90]%float) value
               \/ pointOf "k1" (getFullYear (now (series_world [50; 52; 90]%float)))
                          (series_world [50; 52; 90]%float) value)
            [50; 52; 90]%float
  /\ (getMonth (now (series_world [50; 52; 90]%float)) = 0%Z ->
      (List.length [50; 52; 90]%float <= 4)%nat
      /\ Forall (pointOf "k1" (getFullYear (now (series_world [50; 52; 90]%float)) - 1)
                         (series_world [50; 52; 90]%float))
                [50; 52; 90]%float).
Proof.
  apply (X7_history_points "k1" (series_world [50; 52; 90]%float)).
  vm_compute. reflexivity.
Defined.

(** ** The scenario engine: shape, neutral scenarios, failures *)

Lemma runScenarioTest_spec (kpiId : uuid) (scenarioData : list Scenario) (w : World) :
  runScenarioTest kpiId scenarioData w
  = match scenarioOutcome kpiId scenarioData w with
    | Returned r => (Returned r, w)
    | Thrown cause =>
        (Thrown (MkError "Failed to run scenario test"),
         with_console (console w ++ [ConsoleError "Scenario test error:" cause]) w)
    end.
Proof.
  unfold runScenarioTest, scenarioOutcome, getKPI, getActuals, currentQuarterOf.
  run_step OpGetKPI; [reflexivity |].
  destruct (filter _ (kpiJoin (db w))) as [| row rows]; [reflexivity |].
  run_step OpGetActuals; reflexivity.
Qed.

Lemma map_indexed_length {A B} (f : A -> nat -> B) (l : list A) :
  forall index, List.length (map_indexed f l index) = List.length l.
Proof.
  induction l as [| x l IH]; intros index; cbn; [reflexivity |].
  rewrite IH. reflexivity.
Qed.

Lemma map_indexed_Forall {A B} (f : A -> nat -> B) (P : B -> Prop) (l : list A) :
  (forall x index, P (f x index)) ->
  forall index, Forall P (map_indexed f l index).
Proof.
  intros H. induction l as [| x l IH]; intros index; cbn; constructor; auto.
Qed.

Lemma recommendationsOf_length (scenarios : list ScenarioOutcome) :
  (1 <= List.length (recommendationsOf scenarios) <= 2)%nat.
Proof.
  unfold recommendationsOf.
  destruct (filter (isImpact positive) scenarios);
    destruct (filter (isImpact negative) scenarios); cbn; lia.
Qed.

Lemma string_or_not_empty (a : option string) (b : string) :
  b <> "" -> string_or a b <> "".
Proof.
  intros Hb. unfold string_or.
  destruct a as [s |]; [| exact Hb].
  destruct (String.eqb s "") eqn:E; [exact Hb |].
  apply String.eqb_neq. exact E.
Qed.

(** X9. A result that [runScenarioTest] returns has one outcome for each
    scenario given, in order, each with a non-empty name and with the input
    value of its scenario (0 when none is given), and one or two
    recommendations, never none; the world is left as it was. *)
Theorem X9_runScenarioTest_shape
        (kpiId : uuid) (scenarioData : list Scenario) (w w' : World)
        (r : ScenarioTestResult) :
  runScenarioTest kpiId scenarioData w = (Returned r, w') ->
  w' = w
  /\ st_kpiId r = kpiId
  /\ List.length (st_scenarios r) = List.length scenarioData
  /\ Forall (fun s => so_name s <> "") (st_scenarios r)
  /\ map so_inputValue (st_scenarios r)
     = map (fun sc => number_or_zero (sc_value sc)) scenarioData
  /\ (1 <= List.length (st_recommendations r) <= 2)%nat.
Proof.
  rewrite runScenarioTest_spec. unfold scenarioOutcome.
  destruct (fst (getKPI kpiId w)) as [[kpi |] | e]; try discriminate.
  destruct (fst (getActuals _ _ _ w)) as [currentActuals | e]; [| discriminate].
  cbv zeta. intros H. injection H as <- <-.
  cbn [st_kpiId st_scenarios st_recommendations].
  split; [reflexivity |]. split; [reflexivity |].
  split; [apply map_indexed_length |].
  split; [| split; [| apply recommendationsOf_length]].
  - apply map_indexed_Forall. intros sc index. cbn [projectScenario so_name].
    apply string_or_not_empty. discriminate.
  - generalize 0%nat.
    induction scenarioData as [| sc rest IH]; intros index; cbn; [reflexivity |].
    rewrite IH. reflexivity.
Qed.

(** X9 in the world whose current quarter holds the actual 100. *)
Lemma X9_witness :
  scenario_world = scenario_world
  /\ st_kpiId two_outcomes = "k1"
  /\ List.length (st_scenarios two_outcomes) = List.length two_scenarios
  /\ Forall (fun s => so_name s <> "") (st_scenarios two_outcomes)
  /\ map so_inputValue (st_scenarios two_outcomes)
     = map (fun sc => number_or_zero (sc_value sc)) two_scenarios
  /\ (1 <= List.length (st_recommendations two_outcomes) <= 2)%nat.
Proof.
  apply (X9_runScenarioTest_shape "k1" two_scenarios scenario_world).
  vm_compute. reflexivity.
Defined.

Lemma projectScenario_neutral (currentValue : number) (scenario : Scenario)
      (index : nat) :
  PrimFloat.ltb 0 currentValue = false ->
  so_impact (projectScenario currentValue scenario index) = neutral
  /\ so_confidence (projectScenario currentValue scenario index) = 1%float.
Proof.
  intros H. unfold projectScenario, changePercentOf. rewrite H.
  split; vm_compute; reflexivity.
Qed.

Lemma recommendationsOf_neutral (scenarios : list ScenarioOutcome) :
  Forall (fun s => so_impact s = neutral) scenarios ->
  recommendationsOf scenarios
  = ["All scenarios show neutral impact. Consider more aggressive strategies for improvement."].
Proof.
  intros H. unfold recommendationsOf.
  rewrite (filter_none (isImpact positive) scenarios),
          (filter_none (isImpact negative) scenarios); [reflexivity | |];
    intros s Hs; unfold isImpact;
    rewrite (proj1 (Forall_forall _ _) H s Hs); reflexivity.
Qed.

(** X8. When the current quarter has no actual for the KPI, or the one
    read is not above zero, no change can be computed: every scenario comes
    out neutral with confidence 1, whatever its input value, and the one
    recommendation is the generic sentence. *)
Theorem X8_runScenarioTest_without_current_value
        (kpiId : uuid) (scenarioData : list Scenario) (w : World)
        (kpi : KPIWithDetails) (currentActuals : list Actual) :
  fst (getKPI kpiId w) = Returned (Some kpi) ->
  fst (getActuals kpiId (getFullYear (now w)) (Some (currentQuarterOf w)) w)
  = Returned currentActuals ->
  (forall a rest, currentActuals = a :: rest ->
                  PrimFloat.ltb 0 (act_actualValue a) = false) ->
  exists r,
    runScenarioTest kpiId scenarioData w = (Returned r, w)
    /\ Forall (fun s => so_impact s = neutral /\ so_confidence s = 1%float)
              (st_scenarios r)
    /\ st_recommendations r
       = ["All scenarios show neutral impact. Consider more aggressive strategies for improvement."].
Proof.
  intros Hkpi Hact Hvalue.
  rewrite runScenarioTest_spec. unfold scenarioOutcome. rewrite Hkpi, Hact.
  cbv zeta. eexists. split; [reflexivity |].
  cbn [st_scenarios st_recommendations].
  assert (Hcur : PrimFloat.ltb 0 match currentActuals with
                                 | a :: _ => act_actualValue a
                                 | [] => 0%float
                                 end = false).
  { destruct currentActuals as [| a rest]; [reflexivity |].
    apply (Hvalue a rest eq_refl). }
  split.
  - apply map_indexed_Forall. intros sc index.
    apply projectScenario_neutral, Hcur.
  - apply recommendationsOf_neutral.
    apply map_indexed_Forall. intros sc index.
    apply projectScenario_neutral, Hcur.
Qed.

(** X8 in the base world, which has no actual at all. *)
Lemma X8_witness :
  exists r,
    runScenarioTest "k1" two_scenarios base_world = (Returned r, base_world)
    /\ Forall (fun s => so_impact s = neutral /\ so_confidence s = 1%float)
              (st_scenarios r)
    /\ st_recommendations r
       = ["All scenarios show neutral impact. Consider more aggressive strategies for improvement."].
Proof.
  apply (X8_runScenarioTest_without_current_value
           "k1" two_scenarios base_world
           (withDetails (revenue, growth, ops)) []).
  - reflexivity.
  - reflexivity.
  - intros a rest H. discriminate H.
Defined.

(** X10. Whatever makes [runScenarioTest] fail, the caller sees the one
    error "Failed to run scenario test", the cause going to the console and
    the database staying as it was; a KPI that the lookup does not find is
    such a failure, unlike in [checkThresholds], which returns silently. *)
Theorem X10_runScenarioTest_failure_is_wrapped
        (kpiId : uuid) (scenarioData : list Scenario) (w : World) :
  (forall e w',
      runScenarioTest kpiId scenarioData w = (Thrown e, w') ->
      e = MkError "Failed to run scenario test"
      /\ db w' = db w
      /\ exists cause,
          console w' = console w ++ [ConsoleError "Scenario test error:" cause])
  /\ (fst (getKPI kpiId w) = Returned None ->
      runScenarioTest kpiId scenarioData w
      = (Thrown (MkError "Failed to run scenario test"),
         with_console (console w ++ [ConsoleError "Scenario test error:"
                                                  (MkError "KPI not found")]) w)
      /\ checkThresholds kpiId 0 w = (Returned tt, w)).
Proof.
  split.
  - intros e w'. rewrite runScenarioTest_spec.
    destruct (scenarioOutcome kpiId scenarioData w) as [r | cause]; [discriminate |].
    intros H. injection H as <- <-. repeat split. exists cause. reflexivity.
  - intros Hnone. split.
    + rewrite runScenarioTest_spec. unfold scenarioOutcome. rewrite Hnone. reflexivity.
    + apply checkThresholds_silent; [| left; exact Hnone].
      unfold getKPI, select in Hnone.
      destruct (unavailable w OpGetKPI); [discriminate | reflexivity].
Qed.

(** X10 in the base world, for a KPI id the table does not have. *)
Lemma X10_witness :
  runScenarioTest "k9" two_scenarios base_world
  = (Thrown (MkError "Failed to run scenario test"),
     with_console (console base_world
                     ++ [ConsoleError "Scenario test error:" (MkError "KPI not found")])
                  base_world)
  /\ checkThresholds "k9" 0 base_world = (Returned tt, base_world).
Proof.
  apply (proj2 (X10_runScenarioTest_failure_is_wrapped "k9" two_scenarios base_world)).
  reflexivity.
Defined.

(** ** Submitting an actual: what is stored, and when *)

Lemma postActuals_stored (user : uuid) (body : ActualBody) (files : list string)
      (w : World) (kpiId targetId : uuid) (actualValue : number) :
  body_kpiId body = Some kpiId ->
  body_targetId body = Some targetId ->
  body_actualValue body = Some actualValue ->
  unavailable w OpCreateActual = false ->
  let ins := mkInsertActual kpiId targetId actualValue user files (body_comments body) in
  postActuals user body files w
  = if unavailable w OpCreateAuditLog
    then (Returned (mkResponse 400 (JMessage "Invalid submission data")),
          with_console (console (afterThresholds ins w)
                          ++ [ConsoleError "Submit actual error:"
                                           (MkError "database unavailable")])
                       (afterThresholds ins w))
    else (Returned (mkResponse 201 (JActual (storedActual ins w))),
          add_auditLog (mkAuditLog user "submit" "actual" (act_id (storedActual ins w)))
                       (afterThresholds ins w)).
Proof.
  intros Hk Ht Hv Hact. cbv zeta.
  set (ins := mkInsertActual kpiId targetId actualValue user files (body_comments body)).
  unfold postActuals, insertActualSchema_parse, createActual, createAuditLog.
  rewrite Hk, Ht, Hv. run_unfold. rewrite Hact. run_unfold.
  match goal with
  | |- context [checkThresholds ?k ?v ?w1] =>
      change (checkThresholds k v w1)
        with (checkThresholds (ia_kpiId ins) (ia_actualValue ins)
                              (afterCreateActual ins w))
  end.
  unfold afterThresholds.
  destruct (checkThresholds_spec (ia_kpiId ins) (ia_actualValue ins)
                                 (afterCreateActual ins w)) as (Hret & Hun & _).
  destruct (checkThresholds (ia_kpiId ins) (ia_actualValue ins)
                            (afterCreateActual ins w)) as [r w2].
  cbn [fst snd] in Hret, Hun |- *. subst r. run_unfold.
  rewrite Hun. cbn [unavailable afterCreateActual].
  destruct (unavailable w OpCreateAuditLog); reflexivity.
Qed.

Lemma afterThresholds_db (ins : InsertActual) (w : World) :
  actuals (db (afterThresholds ins w)) = actuals (db w) ++ [storedActual ins w]
  /\ alerts (db (afterThresholds ins w))
     = alerts (db w)
         ++ thresholdAlerts (ia_kpiId ins) (ia_actualValue ins) (afterCreateActual ins w)
  /\ auditLogs (db (afterThresholds ins w)) = auditLogs (db w).
Proof.
  unfold afterThresholds.
  destruct (checkThresholds_spec (ia_kpiId ins) (ia_actualValue ins)
                                 (afterCreateActual ins w))
    as (_ & _ & _ & Ha & Hact & Hlog).
  rewrite Ha, Hact, Hlog. repeat split.
Qed.

(** X11. A submission whose audit-log insert is rejected is answered 400
    "Invalid submission data" although it went through: the actual is
    stored, and so is the alert its value raised; only the audit entry is
    missing. *)
Theorem X11_postActuals_audit_failure_after_store
        (user : uuid) (body : ActualBody) (files : list string) (w : World)
        (kpiId targetId : uuid) (actualValue : number) :
  body_kpiId body = Some kpiId ->
  body_targetId body = Some targetId ->
  body_actualValue body = Some actualValue ->
  unavailable w OpCreateActual = false ->
  unavailable w OpCreateAuditLog = true ->
  let ins := mkInsertActual kpiId targetId actualValue user files (body_comments body) in
  let w' := snd (postActuals user body files w) in
  fst (postActuals user body files w)
  = Returned (mkResponse 400 (JMessage "Invalid submission data"))
  /\ actuals (db w') = actuals (db w) ++ [storedActual ins w]
  /\ alerts (db w')
     = alerts (db w) ++ thresholdAlerts kpiId actualValue (afterCreateActual ins w)
  /\ auditLogs (db w') = auditLogs (db w).
Proof.
  intros Hk Ht Hv Hact Hlog. cbv zeta.
  rewrite (postActuals_stored user body files w kpiId targetId actualValue Hk Ht Hv Hact).
  rewrite Hlog. cbn [fst snd with_console db].
  split; [reflexivity |]. apply afterThresholds_db.
Qed.

(** X11 in the base world with the audit log down, at actual 30. *)
Lemma X11_witness :
  let body := mkActualBody (Some "k1") (Some "t6") (Some 30%float) None in
  let w := world_of base_db audit_down may2024 in
  fst (postActuals "u1" body [] w)
  = Returned (mkResponse 400 (JMessage "Invalid submission data"))
  /\ actuals (db (snd (postActuals "u1" body [] w)))
     = actuals (db w) ++ [storedActual (mkInsertActual "k1" "t6" 30 "u1" [] None) w]
  /\ alerts (db (snd (postActuals "u1" body [] w)))
     = alerts (db w)
         ++ thresholdAlerts "k1" 30
              (afterCreateActual (mkInsertActual "k1" "t6" 30 "u1" [] None) w)
  /\ auditLogs (db (snd (postActuals "u1" body [] w))) = auditLogs (db w).
Proof.
  apply (X11_postActuals_audit_failure_after_store
           "u1" (mkActualBody (Some "k1") (Some "t6") (Some 30%float) None) []
           (world_of base_db audit_down may2024) "k1" "t6" 30);
    reflexivity.
Defined.

Lemma postActuals_rejected
      (user : uuid) (body : ActualBody) (files : list string) (w : World) :
  body_kpiId body = None \/ body_targetId body = None
  \/ body_actualValue body = None \/ unavailable w OpCreateActual = true ->
  fst (postActuals user body files w)
  = Returned (mkResponse 400 (JMessage "Invalid submission data"))
  /\ db (snd (postActuals user body files w)) = db w.
Proof.
  intros H.
  unfold postActuals, insertActualSchema_parse, createActual.
  destruct (body_kpiId body) as [kpiId |]; [| run_unfold; split; reflexivity].
  destruct (body_targetId body) as [targetId |]; [| run_unfold; split; reflexivity].
  destruct (body_actualValue body) as [actualValue |]; [| run_unfold; split; reflexivity].
  destruct H as [H | [H | [H | H]]]; try discriminate.
  run_unfold. rewrite H. run_unfold. split; reflexivity.
Qed.

(** X12. A submission that lacks a required field, or whose insert the
    database rejects, is answered 400 and leaves the database as it was:
    no actual, no alert, no audit entry. *)
Theorem X12_postActuals_rejected_stores_nothing
        (user : uuid) (body : ActualBody) (files : list string) (w : World) :
  body_kpiId body = None \/ body_targetId body = None
  \/ body_actualValue body = None \/ unavailable w OpCreateActual = true ->
  fst (postActuals user body files w)
  = Returned (mkResponse 400 (JMessage "Invalid submission data"))
  /\ db (snd (postActuals user body files w)) = db w.
Proof.
  exact (postActuals_rejected user body files w).
Qed.

(** X12 in the base world, for a body without a value. *)
Lemma X12_witness :
  fst (postActuals "u1" (mkActualBody (Some "k1") (Some "t6") None None) [] base_world)
  = Returned (mkResponse 400 (JMessage "Invalid submission data"))
  /\ db (snd (postActuals "u1" (mkActualBody (Some "k1") (Some "t6") None None) []
                          base_world))
     = db base_world.
Proof.
  apply (X12_postActuals_rejected_stores_nothing
           "u1" (mkActualBody (Some "k1") (Some "t6") None None) [] base_world).
  right. right. left. reflexivity.
Defined.

(** X13. A submission answered 201 has added exactly one actual, of the
    KPI the body names and submitted by the requester, exactly one audit
    entry "submit" naming that actual, and at most one alert; the body of
    the answer is that actual. *)
Theorem X13_postActuals_success_bookkeeping
        (user : uuid) (body : ActualBody) (files : list string) (w w' : World)
        (res : Response) :
  postActuals user body files w = (Returned res, w') ->
  res_status res = 201%Z ->
  exists actual newAlerts,
    res_body res = JActual actual
    /\ act_submittedBy actual = user
    /\ body_kpiId body = Some (act_kpiId actual)
    /\ actuals (db w') = actuals (db w) ++ [actual]
    /\ auditLogs (db w')
       = auditLogs (db w) ++ [mkAuditLog user "submit" "actual" (act_id actual)]
    /\ alerts (db w') = alerts (db w) ++ newAlerts
    /\ (List.length newAlerts <= 1)%nat.
Proof.
  intros Hrun Hstatus.
  destruct (body_kpiId body) as [kpiId |] eqn:Hk.
  2: { pose proof (postActuals_rejected user body files w
                     (or_introl Hk)) as [H _].
       rewrite Hrun in H. cbn in H. injection H as ->. discriminate. }
  destruct (body_targetId body) as [targetId |] eqn:Ht.
  2: { pose proof (postActuals_rejected user body files w
                     (or_intror (or_introl Ht))) as [H _].
       rewrite Hrun in H. cbn in H. injection H as ->. discriminate. }
  destruct (body_actualValue body) as [actualValue |] eqn:Hv.
  2: { pose proof (postActuals_rejected user body files w
                     (or_intror (or_intror (or_introl Hv)))) as [H _].
       rewrite Hrun in H. cbn in H. injection H as ->. discriminate. }
  destruct (unavailable w OpCreateActual) eqn:Hact.
  { pose proof (postActuals_rejected user body files w
                  (or_intror (or_intror (or_intror Hact)))) as [H _].
    rewrite Hrun in H. cbn in H. injection H as ->. discriminate. }
  rewrite (postActuals_stored user body files w kpiId targetId actualValue
                              Hk Ht Hv Hact) in Hrun.
  destruct (unavailable w OpCreateAuditLog).
  { injection Hrun as <- _. discriminate. }
  injection Hrun as <- <-.
  set (ins := mkInsertActual kpiId targetId actualValue user files (body_comments body)).
  destruct (afterThresholds_db ins w) as (Ha & Hal & Hlog).
  exists (storedActual ins w),
         (thresholdAlerts (ia_kpiId ins) (ia_actualValue ins) (afterCreateActual ins w)).
  cbn [res_body add_auditLog with_db db actuals auditLogs alerts].
  rewrite Ha, Hal, Hlog.
  repeat split. apply thresholdAlerts_at_most_one.
Qed.

(** X13 in the base world, at actual 30. *)
Lemma X13_witness :
  let body := mkActualBody (Some "k1") (Some "t6") (Some 30%float) None in
  exists actual newAlerts,
    res_body (mkResponse 201 (JActual (mkActual "row-0" "k1" "t6" 30 "u1" [] None
                                                "pending")))
    = JActual actual
    /\ act_submittedBy actual = "u1"
    /\ body_kpiId body = Some (act_kpiId actual)
    /\ actuals (db (snd (postActuals "u1" body [] base_world)))
       = actuals (db base_world) ++ [actual]
    /\ auditLogs (db (snd (postActuals "u1" body [] base_world)))
       = auditLogs (db base_world) ++ [mkAuditLog "u1" "submit" "actual" (act_id actual)]
    /\ alerts (db (snd (postActuals "u1" body [] base_world)))
       = alerts (db base_world) ++ newAlerts
    /\ (List.length newAlerts <= 1)%nat.
Proof.
  apply (X13_postActuals_success_bookkeeping
           "u1" (mkActualBody (Some "k1") (Some "t6") (Some 30%float) None) []
           base_world).
  - vm_compute. reflexivity.
  - reflexivity.
Defined.

Lemma thresholdAlerts_after_store (ins1 ins2 : InsertActual) (kpiId : uuid)
      (actualValue : number) (w : World) :
  thresholdAlerts kpiId actualValue (afterCreateActual ins1 w)
  = thresholdAlerts kpiId actualValue (afterCreateActual ins2 w).
Proof.
  unfold thresholdAlerts, getKPI, getTargets, select, currentQuarterOf.
  cbn [afterCreateActual unavailable db now].
  destruct (unavailable w OpGetKPI); [reflexivity |].
  destruct (unavailable w OpGetTargets); reflexivity.
Qed.

(** X14. The alert decision of a submission does not look at the target
    the submission names: two submissions of the same value for the same
    KPI, naming whatever targets, leave the same alert table, the check
    being made against the KPI's target of the current quarter. *)
Theorem X14_postActuals_alert_ignores_targetId
        (user : uuid) (files1 files2 : list string) (w : World)
        (kpiId targetId1 targetId2 : uuid) (actualValue : number)
        (comments1 comments2 : option string) :
  alerts (db (snd (postActuals user
                     (mkActualBody (Some kpiId) (Some targetId1) (Some actualValue)
                                   comments1)
                     files1 w)))
  = alerts (db (snd (postActuals user
                       (mkActualBody (Some kpiId) (Some targetId2) (Some actualValue)
                                     comments2)
                       files2 w))).
Proof.
  set (body1 := mkActualBody (Some kpiId) (Some targetId1) (Some actualValue) comments1).
  set (body2 := mkActualBody (Some kpiId) (Some targetId2) (Some actualValue) comments2).
  destruct (unavailable w OpCreateActual) eqn:Hact.
  - rewrite (proj2 (postActuals_rejected user body1 files1 w
                      (or_intror (or_intror (or_intror Hact))))).
    rewrite (proj2 (postActuals_rejected user body2 files2 w
                      (or_intror (or_intror (or_intror Hact))))).
    reflexivity.
  - rewrite (postActuals_stored user body1 files1 w kpiId targetId1 actualValue
                                eq_refl eq_refl eq_refl Hact).
    rewrite (postActuals_stored user body2 files2 w kpiId targetId2 actualValue
                                eq_refl eq_refl eq_refl Hact).
    cbn [body_comments body1 body2].
    set (ins1 := mkInsertActual kpiId targetId1 actualValue user files1 comments1).
    set (ins2 := mkInsertActual kpiId targetId2 actualValue user files2 comments2).
    destruct (afterThresholds_db ins1 w) as (_ & Ha1 & _).
    destruct (afterThresholds_db ins2 w) as (_ & Ha2 & _).
    destruct (unavailable w OpCreateAuditLog);
      cbn [snd with_console add_auditLog with_db db alerts];
      rewrite Ha1, Ha2; cbn [ia_kpiId ia_actualValue ins1 ins2];
      rewrite (thresholdAlerts_after_store ins1 ins2); reflexivity.
Qed.

(** ** Updating an alert: what a request cannot do *)

Lemma patchAlert_run (user id : uuid) (body : AlertBody) (w : World) :
  patchAlert user id body w
  = let updates := alertUpdates user (nowTime w) body in
    if noValues updates
    then (Returned (mkResponse 500 (JMessage "Failed to update alert")),
          with_console (console w ++ [ConsoleError "Update alert error:"
                                                   (MkError "No values to set")]) w)
    else if unavailable w OpUpdateAlert
    then (Returned (mkResponse 500 (JMessage "Failed to update alert")),
          with_console (console w ++ [ConsoleError "Update alert error:"
                                                   (MkError "database unavailable")]) w)
    else
      let rows := map (fun a => if String.eqb (al_id a) id
                                then applyUpdate updates a else a)
                      (alerts (db w)) in
      (Returned (mkResponse 200
                   (JAlert (hd_error (filter (fun a => String.eqb (al_id a) id) rows)))),
       with_db (set_alerts rows (db w)) w).
Proof.
  unfold patchAlert, updateAlert. run_unfold.
  destruct (noValues (alertUpdates user (nowTime w) body)); [reflexivity |].
  run_step OpUpdateAlert; reflexivity.
Qed.

(** X15. Whatever its body, a request of [PATCH /api/alerts/:id] neither
    adds nor removes an alert, keeps the order of the table, leaves alone
    every alert of another id, and on the alert it updates never writes the
    id, type, severity, title, description, KPI, department or creation
    time; the other tables are untouched. *)
Theorem X15_patchAlert_frame (user id : uuid) (body : AlertBody) (w : World) :
  let w' := snd (patchAlert user id body w) in
  Forall2 (fun a a' => sameAlertIdentity a a' /\ (al_id a <> id -> a' = a))
          (alerts (db w)) (alerts (db w'))
  /\ departments (db w') = departments (db w) /\ pillars (db w') = pillars (db w)
  /\ kpis (db w') = kpis (db w) /\ targets (db w') = targets (db w)
  /\ actuals (db w') = actuals (db w) /\ auditLogs (db w') = auditLogs (db w).
Proof.
  cbv zeta. split.
  - apply patchAlert_rows.
    + intros a. split; [repeat split | reflexivity].
    + intros a Hid. split; [repeat split |].
      intros Hne. apply String.eqb_eq in Hid. contradiction.
  - rewrite patchAlert_run. cbv zeta.
    destruct (noValues _); [repeat split |].
    destruct (unavailable w OpUpdateAlert); repeat split.
Qed.

(** X16. A request for an id that no alert has, with a body that carries a
    field and an update the database accepts, is answered 200 with no
    alert in the body, not 404, and the alert table stays as it was. *)
Theorem X16_patchAlert_unknown_id (user id : uuid) (body : AlertBody) (w : World) :
  (forall a, In a (alerts (db w)) -> al_id a <> id) ->
  body_isRead body <> None \/ body_isResolved body <> None ->
  unavailable w OpUpdateAlert = false ->
  fst (patchAlert user id body w) = Returned (mkResponse 200 (JAlert None))
  /\ alerts (db (snd (patchAlert user id body w))) = alerts (db w).
Proof.
  intros Hfresh Hbody Hup. rewrite patchAlert_run. cbv zeta.
  replace (noValues (alertUpdates user (nowTime w) body)) with false
    by (destruct body as [[r |] [s |]]; cbn in *;
        try reflexivity; destruct Hbody as [H | H]; congruence).
  rewrite Hup. cbn [fst snd with_db db set_alerts alerts].
  assert (Hmap : map (fun a => if String.eqb (al_id a) id
                               then applyUpdate (alertUpdates user (nowTime w) body) a
                               else a)
                     (alerts (db w)) = alerts (db w)).
  { rewrite <- (map_id (alerts (db w))) at 2. apply map_ext_in. intros a Ha.
    destruct (String.eqb (al_id a) id) eqn:E; [| reflexivity].
    apply String.eqb_eq in E. destruct (Hfresh a Ha E). }
  rewrite Hmap. split; [| reflexivity].
  rewrite filter_none; [reflexivity |].
  intros a Ha. apply String.eqb_neq. apply Hfresh, Ha.
Qed.

(** X16 in the world of the alert "row-0", for the id "row-7". *)
Lemma X16_witness :
  fst (patchAlert "u1" "row-7" markResolved alert_world)
  = Returned (mkResponse 200 (JAlert None))
  /\ alerts (db (snd (patchAlert "u1" "row-7" markResolved alert_world)))
     = alerts (db alert_world).
Proof.
  apply (X16_patchAlert_unknown_id "u1" "row-7" markResolved alert_world).
  - intros a [<- | []]. vm_compute. discriminate.
  - right. discriminate.
  - reflexivity.
Defined.

(** What [authMiddleware] does with a request: it answers 401 itself, or
    passes the request on with a user. *)
Lemma authMiddleware_cases (jwt_verify : string -> option AuthUser) (req : Request) :
  (exists message,
      authMiddleware jwt_verify req = Respond (mkResponse 401 (JMessage message)))
  \/ (exists user,
         authMiddleware jwt_verify req
         = Next (mkRequest (req_authorization req) (Some user))).
Proof.
  unfold authMiddleware.
  destruct (req_authorization req) as [authHeader |]; [| left; eexists; reflexivity].
  destruct (_ || _); [left; eexists; reflexivity |].
  destruct (jwt_verify _); [right | left]; eexists; reflexivity.
Qed.

(** X17. The route [app.patch("/api/alerts/:id", authMiddleware, handler)],
    guard and handler together on a request whose body has been parsed,
    answers 200, 401 or 500 and nothing else; when it answers 401 the two
    have left the database, the console and the clock as they were; when it
    answers 500 the failure is on the console and the database is as it
    was. *)
Theorem X17_patchAlert_failure_changes_nothing
        (jwt_verify : string -> option AuthUser) (id : uuid) (body : AlertBody)
        (req : Request) (w : World) :
  let run := route_patchAlert jwt_verify id body req w in
  exists res,
    fst run = Returned res
    /\ (res_status res = 200%Z \/ res_status res = 401%Z \/ res_status res = 500%Z)
    /\ (res_status res = 401%Z -> snd run = w)
    /\ (res_status res = 500%Z ->
        db (snd run) = db w
        /\ exists cause,
            console (snd run)
            = console w ++ [ConsoleError "Update alert error:" cause]).
Proof.
  cbv zeta. unfold route_patchAlert. cbn [guarded].
  destruct (authMiddleware_cases jwt_verify req) as [[message ->] | [user ->]].
  { eexists. split; [reflexivity |]. cbn [res_status ret fst snd].
    split; [right; left; reflexivity |].
    split; [reflexivity | discriminate]. }
  cbn [req_user]. rewrite patchAlert_run. cbv zeta.
  destruct (noValues _).
  { eexists. split; [reflexivity |]. cbn [res_status fst snd].
    split; [right; right; reflexivity |].
    split; [discriminate |].
    intros _. split; [reflexivity | eexists; reflexivity]. }
  destruct (unavailable w OpUpdateAlert).
  { eexists. split; [reflexivity |]. cbn [res_status fst snd].
    split; [right; right; reflexivity |].
    split; [discriminate |].
    intros _. split; [reflexivity | eexists; reflexivity]. }
  eexists. split; [reflexivity |]. cbn [res_status fst snd].
  split; [left; reflexivity |].
  split; discriminate.
Qed.

(** ** The dashboard's counts *)

Lemma getQuickStats_returned (rejected : CountQuery -> bool) (w : World)
      (stats : QuickStatsData) :
  fst (getQuickStats rejected w) = Returned stats ->
  qs_activeKPIs stats = count_rows kpi_isActive (kpis (db w))
  /\ qs_departments stats = count_rows dept_isActive (departments (db w))
  /\ qs_alerts stats
     = count_rows (fun a => Bool.eqb (al_isResolved a) false) (alerts (db w)).
Proof.
  unfold getQuickStats, count_query. run_unfold.
  destruct (rejected CountActiveKPIs); [discriminate |].
  destruct (rejected CountActiveDepartments); [discriminate |].
  destruct (rejected CountOpenAlerts); [discriminate |].
  cbn [fst]. intros H. injection H as <-. repeat split.
Qed.

Lemma checkThresholds_tables (kpiId : uuid) (actualValue : number) (w : World) :
  kpis (db (snd (checkThresholds kpiId actualValue w))) = kpis (db w)
  /\ departments (db (snd (checkThresholds kpiId actualValue w))) = departments (db w).
Proof.
  unfold checkThresholds, getKPI, getTargets, createAlert.
  run_step OpGetKPI; [split; reflexivity |].
  destruct (filter _ (kpiJoin (db w))) as [| row rows];
    [run_unfold; split; reflexivity |].
  run_step OpGetTargets; [split; reflexivity |].
  destruct (filter _ (targets (db w))) as [| target rest];
    [run_unfold; split; reflexivity |].
  destruct (alertType (determineAlert _ _ _ _)) as [type |];
    [| run_unfold; split; reflexivity].
  run_step OpCreateAlert; split; reflexivity.
Qed.

Lemma thresholdAlerts_open (kpiId : uuid) (actualValue : number) (w : World) :
  filter (fun a => Bool.eqb (al_isResolved a) false)
         (thresholdAlerts kpiId actualValue w)
  = thresholdAlerts kpiId actualValue w.
Proof.
  unfold thresholdAlerts, thresholdInsert.
  destruct (fst (getKPI kpiId w)) as [[kpi |] | e]; try reflexivity.
  destruct (fst (getTargets _ _ _ w)) as [[| target rest] | e]; try reflexivity.
  destruct (alertType _); try reflexivity.
  destruct (unavailable w OpCreateAlert); reflexivity.
Qed.

(** X18. Every alert a threshold check stores shows in the dashboard:
    the open-alert count of [getQuickStats] after a call of
    [checkThresholds] is the count before plus the alerts the call added,
    and the counts of active KPIs and departments do not move. *)
Theorem X18_quickStats_counts_new_alerts
        (rejected : CountQuery -> bool) (kpiId : uuid) (actualValue : number)
        (w : World) (before after : QuickStatsData) :
  fst (getQuickStats rejected w) = Returned before ->
  fst (getQuickStats rejected (snd (checkThresholds kpiId actualValue w)))
  = Returned after ->
  qs_alerts after
  = (qs_alerts before + Z.of_nat (List.length (thresholdAlerts kpiId actualValue w)))%Z
  /\ qs_activeKPIs after = qs_activeKPIs before
  /\ qs_departments after = qs_departments before.
Proof.
  intros Hb Ha.
  apply getQuickStats_returned in Hb, Ha.
  destruct Hb as (-> & -> & ->). destruct Ha as (-> & -> & ->).
  destruct (checkThresholds_spec kpiId actualValue w) as (_ & _ & _ & -> & _).
  destruct (checkThresholds_tables kpiId actualValue w) as (-> & ->).
  unfold count_rows. rewrite filter_app, length_app, thresholdAlerts_open.
  repeat split. lia.
Qed.

(** X18 in the base world, at actual 30: the count goes from 0 to 1. *)
Lemma X18_witness :
  qs_alerts (mkQuickStatsData 78.5 1 1 1 (mkQuickStatsTrends 5.2 89 3 2))
  = (qs_alerts (mkQuickStatsData 78.5 1 1 0 (mkQuickStatsTrends 5.2 89 3 2))
     + Z.of_nat (List.length (thresholdAlerts "k1" 30 base_world)))%Z
  /\ qs_activeKPIs (mkQuickStatsData 78.5 1 1 1 (mkQuickStatsTrends 5.2 89 3 2))
     = qs_activeKPIs (mkQuickStatsData 78.5 1 1 0 (mkQuickStatsTrends 5.2 89 3 2))
  /\ qs_departments (mkQuickStatsData 78.5 1 1 1 (mkQuickStatsTrends 5.2 89 3 2))
     = qs_departments (mkQuickStatsData 78.5 1 1 0 (mkQuickStatsTrends 5.2 89 3 2)).
Proof.
  apply (X18_quickStats_counts_new_alerts no_count_rejected "k1" 30 base_world);
    vm_compute; reflexivity.
Defined.

Lemma resolve_count (id : uuid) (f : Alert -> Alert) (l : list Alert) :
  (forall a, al_isResolved (f a) = true) ->
  (count_rows (fun a => Bool.eqb (al_isResolved a) false)
              (map (fun a => if String.eqb (al_id a) id then f a else a) l)
   + count_rows (fun a => String.eqb (al_id a) id && Bool.eqb (al_isResolved a) false) l
   = count_rows (fun a => Bool.eqb (al_isResolved a) false) l)%Z.
Proof.
  intros Hf. unfold count_rows.
  induction l as [| a l IH]; [reflexivity |].
  cbn [map filter].
  destruct (String.eqb (al_id a) id) eqn:E.
  - rewrite Hf. cbn [Bool.eqb andb].
    destruct (al_isResolved a); cbn [Bool.eqb List.length]; lia.
  - cbn [andb]. destruct (al_isResolved a); cbn [Bool.eqb List.length]; lia.
Qed.

(** X19. Resolving through the alert route takes the alert off the
    dashboard: after an accepted request with [isResolved] = true, the
    open-alert count of [getQuickStats] is the count before less the open
    alerts of that id. *)
Theorem X19_quickStats_drops_resolved_alert
        (rejected : CountQuery -> bool) (user id : uuid) (isRead : option bool)
        (w : World) (before after : QuickStatsData) :
  unavailable w OpUpdateAlert = false ->
  fst (getQuickStats rejected w) = Returned before ->
  fst (getQuickStats rejected
         (snd (patchAlert user id (mkAlertBody isRead (Some true)) w)))
  = Returned after ->
  qs_alerts after
  = (qs_alerts before
     - count_rows (fun a => String.eqb (al_id a) id && Bool.eqb (al_isResolved a) false)
                  (alerts (db w)))%Z.
Proof.
  intros Hup Hb Ha.
  apply getQuickStats_returned in Hb, Ha.
  destruct Hb as (_ & _ & ->). destruct Ha as (_ & _ & ->).
  rewrite (patchAlert_resolution user id w isRead true Hup).
  pose proof (resolve_count id (withResolution user (nowTime w) isRead true)
                            (alerts (db w)) (fun a => eq_refl)) as H.
  lia.
Qed.

(** X19 in the world of the open alert "row-0": the count goes from 1 to 0. *)
Lemma X19_witness :
  qs_alerts (mkQuickStatsData 78.5 1 1 0 (mkQuickStatsTrends 5.2 89 3 2))
  = (qs_alerts (mkQuickStatsData 78.5 1 1 1 (mkQuickStatsTrends 5.2 89 3 2))
     - count_rows (fun a => String.eqb (al_id a) "row-0"
                            && Bool.eqb (al_isResolved a) false)
                  (alerts (db alert_world)))%Z.
Proof.
  apply (X19_quickStats_drops_resolved_alert no_count_rejected "u1" "row-0" None
                                             alert_world);
    vm_compute; reflexivity.
Defined.

(** ** The KPI lists *)

Lemma kpiJoin_In (d : Database) (k : KPI) (p : Pillar) (dep : Department) :
  In (k, p, dep) (kpiJoin d)
  <-> In k (kpis d)
      /\ In p (pillars d) /\ kpi_pillarId k = pillar_id p
      /\ In dep (departments d) /\ kpi_departmentId k = dept_id dep.
Proof.
  unfold kpiJoin. rewrite in_flat_map. split.
  - intros (k0 & Hk & H). apply in_flat_map in H. destruct H as (p0 & Hp & H).
    apply in_map_iff in H. destruct H as (dep0 & Heq & Hd).
    injection Heq as -> -> ->.
    apply filter_In in Hp, Hd. destruct Hp as (Hp & Hpe), Hd as (Hd & Hde).
    apply String.eqb_eq in Hpe, Hde. repeat split; assumption.
  - intros (Hk & Hp & Hpe & Hd & Hde). exists k. split; [exact Hk |].
    apply in_flat_map. exists p. split.
    + apply filter_In. split; [exact Hp |]. apply String.eqb_eq, Hpe.
    + apply in_map_iff. exists dep. split; [reflexivity |].
      apply filter_In. split; [exact Hd |]. apply String.eqb_eq, Hde.
Qed.

(** X20. The list of "critical" KPIs is the list of all active KPIs: a
    KPI is on it exactly when it is active and its pillar and department
    rows exist, whatever its performance, and each comes with status amber
    and progress 75. *)
Theorem X20_getCriticalKPIs_is_every_active_kpi
        (w : World) (rows : list KPIWithDetails) :
  fst (getCriticalKPIs w) = Returned rows ->
  forall k p dep,
    In (mkKPIWithDetails k p dep amber 75) rows
    <-> kpi_isActive k = true /\ In k (kpis (db w))
        /\ In p (pillars (db w)) /\ kpi_pillarId k = pillar_id p
        /\ In dep (departments (db w)) /\ kpi_departmentId k = dept_id dep.
Proof.
  unfold getCriticalKPIs, getKPIs, select.
  destruct (unavailable w OpGetKPIs); [discriminate |].
  cbn [fst]. intros H. injection H as <-. intros k p dep.
  rewrite in_map_iff. split.
  - intros ([[k0 p0] dep0] & Heq & Hin). cbn in Heq. injection Heq as -> -> ->.
    apply filter_In in Hin. destruct Hin as (Hin & Hact).
    apply kpiJoin_In in Hin. cbn in Hact. tauto.
  - intros (Hact & Hin). exists (k, p, dep). split; [reflexivity |].
    apply filter_In. split; [apply kpiJoin_In; exact Hin | exact Hact].
Qed.

(** X20 in the world of the KPI "k2", whose pillar has no row: "k1" is on
    the list. *)
Lemma X20_witness :
  In (mkKPIWithDetails revenue growth ops amber 75) [withDetails (revenue, growth, ops)]
  <-> kpi_isActive revenue = true /\ In revenue (kpis (db orphan_world))
      /\ In growth (pillars (db orphan_world)) /\ kpi_pillarId revenue = pillar_id growth
      /\ In ops (departments (db orphan_world))
      /\ kpi_departmentId revenue = dept_id ops.
Proof.
  apply (X20_getCriticalKPIs_is_every_active_kpi
           orphan_world [withDetails (revenue, growth, ops)]).
  reflexivity.
Defined.

(** ** One entry a department *)

Lemma departmentPerformanceOf_entry (dept : Department) (w : World) :
  exists p w',
    departmentPerformanceOf dept w = (Returned p, w')
    /\ (dp_id p, dp_name p, dp_code p) = (dept_id dept, dept_name dept, dept_code dept)
    /\ db w' = db w /\ console w' = console w
    /\ (randomIndex w + 4 <= randomIndex w' <= randomIndex w + 5)%nat.
Proof.
  unfold departmentPerformanceOf, Math_random. run_unfold.
  destruct (PrimFloat.ltb 0.7 (randoms w (S (randomIndex w))));
    do 2 eexists; (split; [reflexivity |]); cbn; repeat split; lia.
Qed.

Lemma mapM_departmentPerformanceOf_entries (depts : list Department) :
  forall w, exists ps w',
      mapM departmentPerformanceOf depts w = (Returned ps, w')
      /\ map (fun p => (dp_id p, dp_name p, dp_code p)) ps
         = map (fun d => (dept_id d, dept_name d, dept_code d)) depts
      /\ db w' = db w /\ console w' = console w
      /\ (randomIndex w + 4 * List.length depts <= randomIndex w'
          <= randomIndex w + 5 * List.length depts)%nat.
Proof.
  induction depts as [| dept rest IH]; intros w.
  - exists [], w. cbn. repeat split; lia.
  - destruct (departmentPerformanceOf_entry dept w)
      as (p & w1 & Hp & Hid & Hdb & Hc & Hr).
    destruct (IH w1) as (ps & w2 & Hps & Hids & Hdb2 & Hc2 & Hr2).
    exists (p :: ps), w2. cbn [mapM]. unfold bind at 1. rewrite Hp.
    unfold bind at 1. rewrite Hps. unfold ret. cbn [map List.length].
    rewrite Hid, Hids, Hdb2, Hdb, Hc2, Hc. repeat split; lia.
Qed.

(** X21. [getDepartmentPerformance] returns one entry for each active
    department, in table order, with that department's id, name and code,
    and none for an inactive one; it writes nothing, and draws 4 or 5
    random numbers for each entry. When the department query is rejected
    it throws without drawing any. *)
Theorem X21_getDepartmentPerformance_entries (year quarter : Z) (w : World) :
  (unavailable w OpGetDepartments = false ->
   exists ps w',
     getDepartmentPerformance year quarter w = (Returned ps, w')
     /\ map (fun p => (dp_id p, dp_name p, dp_code p)) ps
        = map (fun d => (dept_id d, dept_name d, dept_code d))
              (filter dept_isActive (departments (db w)))
     /\ db w' = db w /\ console w' = console w
     /\ (randomIndex w + 4 * List.length ps <= randomIndex w'
         <= randomIndex w + 5 * List.length ps)%nat)
  /\ (unavailable w OpGetDepartments = true ->
      getDepartmentPerformance year quarter w
      = (Thrown (MkError "database unavailable"), w)).
Proof.
  unfold getDepartmentPerformance, getDepartments. split; intros Hup.
  - run_unfold. rewrite Hup.
    destruct (mapM_departmentPerformanceOf_entries
                (filter dept_isActive (departments (db w))) w)
      as (ps & w' & Hps & Hids & Hdb & Hc & Hr).
    exists ps, w'. rewrite Hps.
    assert (Hlen : List.length ps
                   = List.length (filter dept_isActive (departments (db w)))).
    { rewrite <- (length_map (fun p => (dp_id p, dp_name p, dp_code p)) ps), Hids.
      apply length_map. }
    rewrite Hlen. repeat split; try assumption; lia.
  - run_unfold. rewrite Hup. reflexivity.
Qed.

(** ** The guards of the routes *)

Lemma substring_all (s : string) : String.substring 0 (String.length s) s = s.
Proof.
  induction s as [| c s IH]; cbn; [reflexivity |]. rewrite IH. reflexivity.
Qed.

Lemma bearer_token (token : string) :
  String.prefix "Bearer " (String.append "Bearer " token) = true
  /\ substring_from 7 (String.append "Bearer " token) = token.
Proof.
  split; [destruct token; reflexivity |].
  unfold substring_from. cbn. rewrite Nat.sub_0_r. apply substring_all.
Qed.

Lemma authMiddleware_passes (jwt_verify : string -> option AuthUser)
      (req : Request) (token : string) (user : AuthUser) :
  req_authorization req = Some (String.append "Bearer " token) ->
  jwt_verify token = Some user ->
  authMiddleware jwt_verify req = Next (mkRequest (req_authorization req) (Some user)).
Proof.
  intros Hh Hv. unfold authMiddleware. rewrite Hh.
  destruct (bearer_token token) as [Hp Hs]. rewrite Hp, Hs, Hv.
  destruct user. reflexivity.
Qed.

Lemma authMiddleware_rejects (jwt_verify : string -> option AuthUser) (req : Request) :
  unauthenticated jwt_verify req ->
  exists message,
    authMiddleware jwt_verify req = Respond (mkResponse 401 (JMessage message)).
Proof.
  unfold unauthenticated, authMiddleware.
  destruct (req_authorization req) as [h |]; [| eexists; reflexivity].
  destruct (String.eqb h ""); [intros _; eexists; reflexivity |].
  cbn [orb]. intros [H | H].
  - rewrite H. eexists. reflexivity.
  - destruct (String.prefix "Bearer " h); cbn [negb]; [rewrite H |];
      eexists; reflexivity.
Qed.

(** X22. A request that carries no bearer token that verifies is answered
    401 by the submission route and by the alert route, whatever its body,
    and leaves the world as it was: nothing stored, nothing logged. *)
Theorem X22_routes_refuse_unauthenticated
        (jwt_verify : string -> option AuthUser) (req : Request) (w : World) :
  unauthenticated jwt_verify req ->
  (forall body files,
      exists message,
        route_postActuals jwt_verify body files req w
        = (Returned (mkResponse 401 (JMessage message)), w))
  /\ (forall id body,
         exists message,
           route_patchAlert jwt_verify id body req w
           = (Returned (mkResponse 401 (JMessage message)), w)).
Proof.
  intros H. destruct (authMiddleware_rejects jwt_verify req H) as (message & Hm).
  split; intros; exists message;
    unfold route_postActuals, route_patchAlert; cbn [guarded]; rewrite Hm; reflexivity.
Qed.

(** X22 in the world of the open alert, for a request with a token that
    does not verify. *)
Lemma X22_witness :
  (forall body files,
      exists message,
        route_postActuals verify_analyst body files
                          (mkRequest (Some "Bearer forged") None) alert_world
        = (Returned (mkResponse 401 (JMessage message)), alert_world))
  /\ (forall id body,
         exists message,
           route_patchAlert verify_analyst id body
                            (mkRequest (Some "Bearer forged") None) alert_world
           = (Returned (mkResponse 401 (JMessage message)), alert_world)).
Proof.
  apply (X22_routes_refuse_unauthenticated
           verify_analyst (mkRequest (Some "Bearer forged") None) alert_world).
  right. reflexivity.
Defined.

(** X23. With a header "Bearer " followed by a token that verifies, the
    two routes run their handlers as the user of the token, whatever the
    role: any authenticated user submits actuals, and reads or resolves any
    alert, in the name of the token's id. *)
Theorem X23_routes_act_as_the_token_user
        (jwt_verify : string -> option AuthUser) (req : Request)
        (token : string) (user : AuthUser) (w : World) :
  req_authorization req = Some (String.append "Bearer " token) ->
  jwt_verify token = Some user ->
  (forall body files,
      route_postActuals jwt_verify body files req w
      = postActuals (au_id user) body files w)
  /\ (forall id body,
         route_patchAlert jwt_verify id body req w
         = patchAlert (au_id user) id body w).
Proof.
  intros Hh Hv.
  pose proof (authMiddleware_passes jwt_verify req token user Hh Hv) as Hpass.
  split; intros;
    unfold route_postActuals, route_patchAlert; cbn [guarded]; rewrite Hpass;
    reflexivity.
Qed.

(** X23 for the analyst, a user without a special role. *)
Lemma X23_witness :
  (forall body files,
      route_postActuals verify_analyst body files
                        (mkRequest (Some "Bearer token-of-ada") None) alert_world
      = postActuals (au_id analyst) body files alert_world)
  /\ (forall id body,
         route_patchAlert verify_analyst id body
                          (mkRequest (Some "Bearer token-of-ada") None) alert_world
         = patchAlert (au_id analyst) id body alert_world).
Proof.
  apply (X23_routes_act_as_the_token_user
           verify_analyst (mkRequest (Some "Bearer token-of-ada") None)
           "token-of-ada" analyst alert_world);
    reflexivity.
Defined.

(** X24. A route guarded by [authMiddleware] and [requireRole] never runs
    its handler for a verified user whose role is not one of the allowed:
    the answer is 403 and the world is untouched. A route guarded by
    [requireRole] alone, as the registration route is, answers 401 to every
    request on which no user was set, whatever token its header carries. *)
Theorem X24_requireRole_guards
        (jwt_verify : string -> option AuthUser) (allowedRoles : list string)
        (handler : Request -> Async Response) (req : Request) (w : World) :
  (forall token user,
      req_authorization req = Some (String.append "Bearer " token) ->
      jwt_verify token = Some user ->
      ~ In (au_role user) allowedRoles ->
      guarded [authMiddleware jwt_verify; requireRole allowedRoles] handler req w
      = (Returned (mkResponse 403 (JMessage "Insufficient permissions")), w))
  /\ (req_user req = None ->
      guarded [requireRole allowedRoles] handler req w
      = (Returned (mkResponse 401 (JMessage "Authentication required")), w)).
Proof.
  split.
  - intros token user Hh Hv Hrole. cbn [guarded].
    rewrite (authMiddleware_passes jwt_verify req token user Hh Hv).
    unfold requireRole. cbn [req_user].
    replace (existsb (String.eqb (au_role user)) allowedRoles) with false;
      [reflexivity |].
    symmetry. apply not_true_is_false. intros H.
    apply existsb_exists in H. destruct H as (r & Hin & Heq).
    apply String.eqb_eq in Heq. subst r. exact (Hrole Hin).
  - intros Hnone. cbn [guarded]. unfold requireRole. rewrite Hnone. reflexivity.
Qed.

(** X24 for the analyst on a route for administrators, and for a request
    with the analyst's valid token on a route guarded by [requireRole]
    alone. *)
Lemma X24_witness :
  guarded [authMiddleware verify_analyst; requireRole ["admin"]]
          (fun _ => ret (mkResponse 201 (JMessage "created")))
          (mkRequest (Some "Bearer token-of-ada") None) base_world
  = (Returned (mkResponse 403 (JMessage "Insufficient permissions")), base_world)
  /\ guarded [requireRole ["admin"]]
             (fun _ => ret (mkResponse 201 (JMessage "created")))
             (mkRequest (Some "Bearer token-of-ada") None) base_world
     = (Returned (mkResponse 401 (JMessage "Authentication required")), base_world).
Proof.
  destruct (X24_requireRole_guards
              verify_analyst ["admin"]
              (fun _ => ret (mkResponse 201 (JMessage "created")))
              (mkRequest (Some "Bearer token-of-ada") None) base_world)
    as [H403 H401].
  split.
  - apply (H403 "token-of-ada" analyst); try reflexivity.
    intros [H | []]. discriminate H.
  - apply H401. reflexivity.
Defined.

(** ** The periods of a forecast *)

Lemma daysInMonth_at_least_28 (y m : Z) : (28 <= daysInMonth y m)%Z.
Proof.
  unfold daysInMonth.
  destruct (m =? 1)%Z; [destruct (isLeapYear y); lia |].
  destruct ((m =? 3) || (m =? 5) || (m =? 8) || (m =? 10))%Z; lia.
Qed.

Lemma setMonth_keeps_day (d : Date) (m : Z) :
  (getDate d <= 28)%Z ->
  setMonth d m = mkDate (getFullYear d + m / 12) (m mod 12) (getDate d).
Proof.
  intros H. unfold setMonth.
  pose proof (daysInMonth_at_least_28 (getFullYear d + m / 12) (m mod 12)) as Hd.
  replace (getDate d <=? daysInMonth (getFullYear d + m / 12) (m mod 12))%Z with true
    by (symmetry; apply Z.leb_le; lia).
  reflexivity.
Qed.

(** X25. On a day of the month up to the 28th, the four periods of a
    forecast are the four quarters after the current one, in order. Later
    in the month the day can run over into the next month: on 31 March the
    periods are Q3, Q4, Q4 and Q1, the second quarter missing and the
    fourth named twice. *)
Theorem X25_forecast_periods
        (kpiId : uuid) (w w' : World) (r : ForecastResult) :
  generateForecast kpiId w = (Returned r, w') ->
  (0 <= getMonth (now w) <= 11)%Z ->
  (getDate (now w) <= 28)%Z ->
  map fp_period (fr_forecast r)
  = map (quarterAfter (now w)) [1; 2; 3; 4]%Z
  /\ map (fun i => fp_period (forecastPointAt march31 4 0 0 i)) [0; 1; 2; 3]%nat
     = ["Q3 2024"; "Q4 2024"; "Q4 2024"; "Q1 2025"].
Proof.
  rewrite generateForecast_spec. unfold forecastOutcome.
  destruct (forecastHistory kpiId w) as [h | e]; [| discriminate].
  destruct (List.length h <? 2)%nat; [discriminate |].
  destruct (regression (map hd_value h)) as [slope intercept].
  intros H Hmonth Hday. injection H as <- _.
  split; [| vm_compute; reflexivity].
  cbn [fr_forecast map forecastPointAt fp_period].
  unfold quarterAfter. rewrite !(setMonth_keeps_day _ _ Hday).
  cbn [getMonth getFullYear].
  assert (Hcases : getMonth (now w) = 0 \/ getMonth (now w) = 1 \/ getMonth (now w) = 2
                   \/ getMonth (now w) = 3 \/ getMonth (now w) = 4
                   \/ getMonth (now w) = 5 \/ getMonth (now w) = 6
                   \/ getMonth (now w) = 7 \/ getMonth (now w) = 8
                   \/ getMonth (now w) = 9 \/ getMonth (now w) = 10
                   \/ getMonth (now w) = 11) by lia.
  repeat (destruct Hcases as [Hc | Hcases]; [rewrite Hc; reflexivity |]).
  rewrite Hcases. reflexivity.
Qed.

(** X25 for the forecast of the series 40, 30, 20, 10 on 15 May 2024. *)
Lemma X25_witness :
  map fp_period (fr_forecast falling_forecast)
  = map (quarterAfter (now (series_world [40; 30; 20; 10]%float))) [1; 2; 3; 4]%Z
  /\ map (fun i => fp_period (forecastPointAt march31 4 0 0 i)) [0; 1; 2; 3]%nat
     = ["Q3 2024"; "Q4 2024"; "Q4 2024"; "Q1 2025"].
Proof.
  apply (X25_forecast_periods "k1" (series_world [40; 30; 20; 10]%float)
                              (series_world [40; 30; 20; 10]%float)).
  - vm_compute. reflexivity.
  - cbn. lia.
  - cbn. lia.
Defined.
